(** * The lab deployment orchestrator and the post-creation retry wrapper

    A shallow embedding of

    - [udf_worker/function.py]: the DynamoDB-stream worker with
      [update_deployment_state], [invoke_lambda], [process_insert],
      [process_remove] and [lambda_handler];
    - [udf_helpers/cailab-post/function.py]: [_run_with_auth_retry].

    Python code that talks to AWS is modelled as a state-and-exception
    computation over a world made of the deployment state table and a trace
    of the external calls made so far.  What the outside world answers
    (Lambda replies, DynamoDB faults, the clock) is supplied by an
    [environment] of oracles that see the trace, so that nothing about the
    collaborators is assumed beyond what a theorem states. *)

From Stdlib Require Import Ascii QArith.
From stdpp Require Import gmap strings list fin_maps pretty.

(** ** Python values shared by both programs *)

(** The exceptions the programs raise or let through. *)
Inductive exn :=
| RuntimeError (msg : string)
| KeyError (key : string)
| UnboundLocalError (name : string)
| ClientError (msg : string)
| RequestException (msg : string).

(** [str(e)]: a [KeyError] prints the [repr] of its key. *)
Definition str_exn (e : exn) : string :=
  match e with
  | RuntimeError msg => msg
  | KeyError key => "'" +:+ key +:+ "'"
  | UnboundLocalError name =>
      "cannot access local variable '" +:+ name +:+
      "' where it is not associated with a value"
  | ClientError msg => msg
  | RequestException msg => msg
  end.

Inductive result (A : Type) :=
| Ok (a : A)
| Raise (e : exn).
Arguments Ok {A} a.
Arguments Raise {A} e.

(** An f-string hole holding a value that may be [None]. *)
Definition fmt_opt (o : option string) : string := default "None" o.

(** Truthiness of an optional string: [None] and [""] are falsy. *)
Definition truthy (o : option string) : bool :=
  match o with
  | Some s => negb (String.eqb s "")
  | None => false
  end.

(** [str(b)] for a Python bool. *)
Definition str_bool (b : bool) : string := if b then "True" else "False".

(** [s.split("@")[0]]: the text before the first ["@"], all of [s] when
    there is none. *)
Fixpoint local_part (s : string) : string :=
  match s with
  | EmptyString => EmptyString
  | String c rest =>
      if Ascii.eqb c "@"%char then EmptyString else String c (local_part rest)
  end.

(** ** Computations: state and exceptions

    A computation takes the state of the outside world, returns a value or
    raises, and leaves a new state; what was done before an exception stays
    done. *)

Definition M (St A : Type) : Type := St → result A * St.

Definition ret {St A} (a : A) : M St A := fun w => (Ok a, w).
Definition raise {St A} (e : exn) : M St A := fun w => (Raise e, w).
Definition bind {St A B} (m : M St A) (k : A → M St B) : M St B :=
  fun w =>
    match m w with
    | (Ok a, w') => k a w'
    | (Raise e, w') => (Raise e, w')
    end.
Definition lift {St A} (r : result A) : M St A := fun w => (r, w).

(** [try: body except Exception as e: handler e] *)
Definition try_except {St A} (body : M St A) (handler : exn → M St A)
  : M St A :=
  fun w =>
    match body w with
    | (Ok a, w') => (Ok a, w')
    | (Raise e, w') => handler e w'
    end.

Notation "'let*' x ':=' m 'in' k" := (bind m (fun x => k))
  (at level 10, x name, m at level 100, k at level 200).
Notation "'run' m 'in' k" := (bind m (fun _ => k))
  (at level 10, m at level 100, k at level 200).

Module Worker.

(** ** Data of [udf_worker/function.py] *)

(** A DynamoDB attribute value, [{"S": s}] or [{"N": n}]. *)
Inductive attr :=
| AttrS (s : string)
| AttrN (n : string).

#[global] Instance attr_eq_dec : EqDecision attr.
Proof. solve_decision. Defined.

(** [a["S"]] on an attribute value. *)
Definition attr_S (a : attr) : result string :=
  match a with
  | AttrS s => Ok s
  | AttrN _ => Raise (KeyError "S")
  end.

(** [a.get("S")] on an attribute value. *)
Definition attr_get_S (a : attr) : option string :=
  match a with
  | AttrS s => Some s
  | AttrN _ => None
  end.

(** One record of a DynamoDB stream event.  [NewImage] and [Keys] are the
    optional members of [record["dynamodb"]]. *)
Record stream_record := {
  eventName : string;
  NewImage : option (gmap string attr);
  Keys : option (gmap string attr)
}.

(** What an invoked Lambda answers, as [json.loads] hands it over:
    [statusCode] and [body] are read with [.get], so either may be absent. *)
Record response := {
  statusCode : option Z;
  body : option string
}.

(** The payload dictionaries the worker builds, one constructor per call
    site. *)
Inductive payload :=
| NamespacePayload (ssm_base_path namespace_name description : string)
| UserPayload (ssm_base_path first_name last_name email : string)
    (group_names : list string) (namespace_roles : list (string * string))
| RemoveUserPayload (ssm_base_path email : string)
| RemoveNamespacePayload (ssm_base_path namespace_name : string).

(** The dictionary [get_lab_info] returns. *)
Record lab_info := {
  ssm_base_path : string;
  group_names : list string;
  namespace_roles : list (string * string);
  user_ns : bool;
  pre_lambda : option string
}.

(** The external calls of the worker, in the order they happen; the trace
    of a world lists them most recent first.  [written] tells whether
    DynamoDB accepted the update. *)
Inductive event :=
| EvInvoke (function_name : option string) (p : payload)
| EvUpdateItem (depID step status timestamp : string)
    (details : option string) (written : bool)
| EvGetItem (depID : string)
| EvPrint (msg : string).

Record world := {
  table : gmap string (gmap string attr);
  trace : list event
}.

(** The module-level configuration read from the process environment and
    the behaviour of the collaborators. *)
Record environment := {
  CREATE_NAMESPACE_LAMBDA : option string;
  CREATE_USER_LAMBDA : option string;
  REMOVE_NAMESPACE_LAMBDA : option string;
  REMOVE_USER_LAMBDA : option string;
  LAB_CONFIGURATION_TABLE : option string;
  DEPLOYMENT_STATE_TABLE : option string;
  (** [lambda_client.invoke] followed by [json.loads] of the payload *)
  lambda_client_invoke : list event → option string → payload → result response;
  (** the exception a DynamoDB call raises at this point, if any *)
  dynamodb_fault : list event → option exn;
  (** [int(time.time())] *)
  time_time : list event → Z;
  (** Modelled from the spec: [get_lab_info] is called by [process_insert]
      but defined in no file of the repository; it is taken as a parameter
      returning the LabConfiguration of the spec or raising. *)
  get_lab_info : list event → string → result lab_info
}.

Abbreviation M := (M world).

Definition emit (ev : event) : M unit :=
  fun w => (Ok tt, {| table := table w; trace := ev :: trace w |}).

Definition print (msg : string) : M unit := emit (EvPrint msg).

(** [d[key]] on a dictionary of attribute values. *)
Definition getitem (d : gmap string attr) (key : string) : result attr :=
  match d !! key with
  | Some a => Ok a
  | None => Raise (KeyError key)
  end.

(** [d[key]["S"]] *)
Definition getitem_S (d : gmap string attr) (key : string) : result string :=
  match getitem d key with
  | Ok a => attr_S a
  | Raise e => Raise e
  end.

(** ** The deployment state table *)

(** DynamoDB rejects, with a ValidationException, an update whose SET paths
    overlap ([step] is [updated_at], or [details] while details are set) or
    whose path is the key [depID].  The text of its message is not
    modelled. *)
Definition update_paths_ok (step : string) (details : option string) : bool :=
  negb (String.eqb step "depID") && negb (String.eqb step "updated_at")
  && match details with
     | Some _ => negb (String.eqb step "details")
     | None => true
     end.

(** The effect of [SET #s = :status, updated_at = :timestamp] with the
    optional [details = :details] on the item keyed [depID]; an absent item
    is created with its key. *)
Definition update_item (depID step status timestamp : string)
    (details : option string) (t : gmap string (gmap string attr))
  : gmap string (gmap string attr) :=
  let item := default {[ "depID" := AttrS depID ]} (t !! depID) in
  let item := <[ step := AttrS status ]> item in
  let item := <[ "updated_at" := AttrN timestamp ]> item in
  let item := match details with
              | Some d => <[ "details" := AttrS d ]> item
              | None => item
              end in
  <[ depID := item ]> t.

(** ** Reading a trace *)

(** The status an event wrote into field [step] of record [depID], if it
    is an accepted update of that field. *)
Definition written_status (depID step : string) (ev : event) : option string :=
  match ev with
  | EvUpdateItem d s status _ _ true =>
      if decide (d = depID ∧ s = step) then Some status else None
  | _ => None
  end.

(** The statuses written into field [step] of record [depID] by the events
    of [chronological], oldest first. *)
Definition written_statuses (depID step : string)
    (chronological : list event) : list string :=
  omap (written_status depID step) chronological.

(** The transitions of the status life cycle:
    PENDING → IN_PROGRESS → SUCCESS or FAILED. *)
Definition forward_transition (a b : string) : bool :=
  (String.eqb a "PENDING" && String.eqb b "IN_PROGRESS")
  || (String.eqb a "IN_PROGRESS"
      && (String.eqb b "SUCCESS" || String.eqb b "FAILED")).

(** Every status of the sequence follows its predecessor by a forward
    transition. *)
Fixpoint only_forward (statuses : list string) : bool :=
  match statuses with
  | a :: (b :: _) as rest => forward_transition a b && only_forward rest
  | _ => true
  end.

(** The field and status of an accepted update, whatever the record. *)
Definition written_pair (ev : event) : option (string * string) :=
  match ev with
  | EvUpdateItem _ step status _ _ true => Some (step, status)
  | _ => None
  end.

(** The statuses paired with [step]. *)
Definition statuses_of (step : string) (pairs : list (string * string))
  : list string :=
  omap (λ p, if String.eqb p.1 step then Some p.2 else None) pairs.

(** [only_forward] for every field named in [pairs]. *)
Definition steps_forward (pairs : list (string * string)) : bool :=
  forallb (λ step, only_forward (statuses_of step pairs)) pairs.*1.

(** The event touches no record but [depID]. *)
Definition updates_record (depID : string) (ev : event) : Prop :=
  match ev with
  | EvUpdateItem d _ _ _ _ _ => d = depID
  | _ => True
  end.

(** [tr] extends [tr0] by events that satisfy [P]. *)
Definition since (tr0 tr : list event) (P : list event → Prop) : Prop :=
  ∃ new, tr = new ++ tr0 ∧ P new.

(** Attribute [name] of the item keyed [depID]. *)
Definition field (t : gmap string (gmap string attr)) (depID name : string)
  : option attr :=
  t !! depID ≫= (.!! name).

(** Calls of the removal actions, told apart by the payload they carry. *)
Definition is_remove_namespace_call (ev : event) : bool :=
  match ev with
  | EvInvoke _ (RemoveNamespacePayload _ _) => true
  | _ => false
  end.

Definition is_remove_user_call (ev : event) : bool :=
  match ev with
  | EvInvoke _ (RemoveUserPayload _ _) => true
  | _ => false
  end.

Definition is_invoke (ev : event) : bool :=
  match ev with
  | EvInvoke _ _ => true
  | _ => false
  end.

Section WithEnvironment.

Variable env : environment.

(** [invoke_lambda]: any exception of the call is wrapped into a
    [RuntimeError]. *)
Definition invoke_lambda (function_name : option string) (p : payload)
  : M response :=
  fun w =>
    let w' := {| table := table w;
                 trace := EvInvoke function_name p :: trace w |} in
    match lambda_client_invoke env (trace w) function_name p with
    | Ok r => (Ok r, w')
    | Raise e =>
        (Raise (RuntimeError ("Failed to invoke Lambda '" +:+
                              fmt_opt function_name +:+ "': " +:+ str_exn e)),
         w')
    end.

(** [update_deployment_state]: [details] joins the update only when it is
    truthy; any exception of [update_item] is wrapped into a
    [RuntimeError]. *)
Definition update_deployment_state (depID step status : string)
    (details : option string) : M unit :=
  fun w =>
    let timestamp := pretty (time_time env (trace w)) in
    let details' := if truthy details then details else None in
    let failed e :=
      (Raise (RuntimeError ("Failed to update deployment state in DynamoDB: "
                            +:+ str_exn e)),
       {| table := table w;
          trace := EvUpdateItem depID step status timestamp details' false
                   :: trace w |}) in
    match dynamodb_fault env (trace w) with
    | Some e => failed e
    | None =>
        if update_paths_ok step details' then
          (Ok tt,
           {| table := update_item depID step status timestamp details'
                         (table w);
              trace := EvUpdateItem depID step status timestamp details' true
                       :: trace w |})
        else failed (ClientError "ValidationException")
    end.

(** [dynamodb.get_item(...).get("Item", {})] *)
Definition get_item (depID : string) : M (gmap string attr) :=
  fun w =>
    let w' := {| table := table w; trace := EvGetItem depID :: trace w |} in
    match dynamodb_fault env (trace w) with
    | Some e => (Raise e, w')
    | None => (Ok (default ∅ (table w !! depID)), w')
    end.

(** ** The provisioning workflow *)

(** The first statements of the [try] block of [process_insert]:
    [new_image = record["dynamodb"]["NewImage"]] and
    [depID = new_image["depID"]["S"]].  Until they have run, the local
    [depID] is unbound. *)
Definition process_insert_depID (record : stream_record)
  : result (gmap string attr * string) :=
  match NewImage record with
  | None => Raise (KeyError "NewImage")
  | Some new_image =>
      match getitem_S new_image "depID" with
      | Ok depID => Ok (new_image, depID)
      | Raise e => Raise e
      end
  end.

(** Step 1 of [process_insert], run when [user_ns] is truthy.  It returns
    the local [created_namespace] and the list [namespace_roles], to which
    the admin role has been appended on success. *)
Definition create_namespace_step (depID petname : string) (lab : lab_info)
  : M (bool * list (string * string)) :=
  let namespace_payload :=
    NamespacePayload (ssm_base_path lab) petname ("Namespace for " +:+ depID) in
  run update_deployment_state depID "create_namespace" "IN_PROGRESS"
        (Some "Creating namespace") in
  let* namespace_response :=
    invoke_lambda (CREATE_NAMESPACE_LAMBDA env) namespace_payload in
  if decide (statusCode namespace_response = Some 200%Z) then
    run update_deployment_state depID "create_namespace" "SUCCESS"
          (body namespace_response) in
    ret (true, namespace_roles lab ++ [(petname, "ves-io-admin")])
  else
    run update_deployment_state depID "create_namespace" "FAILED"
          (body namespace_response) in
    run print ("Namespace already exists or failed: " +:+
               fmt_opt (body namespace_response)) in
    ret (false, namespace_roles lab).

(** Step 2 of [process_insert]; it returns the local [created_user]. *)
Definition create_user_step (depID email : string) (lab : lab_info)
    (roles : list (string * string)) : M bool :=
  let user_payload :=
    UserPayload (ssm_base_path lab) (local_part email) "User" email
      (group_names lab) roles in
  run update_deployment_state depID "create_user" "IN_PROGRESS"
        (Some "Creating user") in
  let* user_response := invoke_lambda (CREATE_USER_LAMBDA env) user_payload in
  if decide (statusCode user_response = Some 200%Z) then
    run update_deployment_state depID "create_user" "SUCCESS"
          (body user_response) in
    ret true
  else
    run update_deployment_state depID "create_user" "FAILED"
          (body user_response) in
    run print ("User already exists or failed: " +:+
               fmt_opt (body user_response)) in
    ret false.

(** The rest of the [try] block of [process_insert], from
    [labID = new_image["labID"]["S"]] on. *)
Definition process_insert_steps (new_image : gmap string attr)
    (depID : string) : M unit :=
  let* labID := lift (getitem_S new_image "labID") in
  let* email := lift (getitem_S new_image "email") in
  let* petname := lift (getitem_S new_image "petname") in
  run update_deployment_state depID "deployment_status" "IN_PROGRESS"
        (Some "Starting deployment") in
  if negb (truthy (CREATE_NAMESPACE_LAMBDA env))
     || negb (truthy (CREATE_USER_LAMBDA env))
     || negb (truthy (LAB_CONFIGURATION_TABLE env))
  then raise (RuntimeError "Missing required environment variables.")
  else
    let* lab := (fun w => (get_lab_info env (trace w) labID, w)) in
    let* ns :=
      (if user_ns lab then create_namespace_step depID petname lab
       else ret (false, namespace_roles lab)) in
    let* created_user := create_user_step depID email lab ns.2 in
    run update_deployment_state depID "created_namespace" (str_bool ns.1)
          None in
    update_deployment_state depID "created_user" (str_bool created_user) None.

(** The [except Exception as e] clause of [process_insert].  Its first
    statement reads the local [depID]; when the [try] block failed before
    binding it, that read raises [UnboundLocalError]. *)
Definition process_insert_except (depID : option string) (e : exn) : M unit :=
  match depID with
  | None => raise (UnboundLocalError "depID")
  | Some depID =>
      run update_deployment_state depID "deployment_status" "FAILED"
            (Some (str_exn e)) in
      run print ("Error processing INSERT record: " +:+ str_exn e) in
      raise e
  end.

Definition process_insert (record : stream_record) : M unit :=
  match process_insert_depID record with
  | Raise e => process_insert_except None e
  | Ok (new_image, depID) =>
      try_except (process_insert_steps new_image depID)
                 (process_insert_except (Some depID))
  end.

(** ** The teardown workflow *)

(** [depID = record["dynamodb"]["Keys"]["depID"]["S"]] *)
Definition process_remove_depID (record : stream_record) : result string :=
  match Keys record with
  | None => Raise (KeyError "Keys")
  | Some keys => getitem_S keys "depID"
  end.

(** [item.get(name, {}).get("S") == "True"] *)
Definition flag_is_True (item : gmap string attr) (name : string) : bool :=
  bool_decide ((item !! name) ≫= attr_get_S = Some "True").

(** The [try] block of [process_remove] once [depID] is bound. *)
Definition process_remove_steps (depID : string) : M unit :=
  let* item := get_item depID in
  let created_namespace := flag_is_True item "created_namespace" in
  let created_user := flag_is_True item "created_user" in
  run (if created_user then
         run update_deployment_state depID "cleanup_status" "IN_PROGRESS"
               (Some "Removing user") in
         let* ssm := lift (getitem_S item "ssm_base_path") in
         let* email := lift (getitem_S item "email") in
         run invoke_lambda (REMOVE_USER_LAMBDA env)
               (RemoveUserPayload ssm email) in
         ret tt
       else ret tt) in
  run (if created_namespace then
         run update_deployment_state depID "cleanup_status" "IN_PROGRESS"
               (Some "Removing namespace") in
         let* ssm := lift (getitem_S item "ssm_base_path") in
         let* petname := lift (getitem_S item "petname") in
         run invoke_lambda (REMOVE_NAMESPACE_LAMBDA env)
               (RemoveNamespacePayload ssm petname) in
         ret tt
       else ret tt) in
  update_deployment_state depID "cleanup_status" "COMPLETED"
    (Some "Cleanup completed successfully").

Definition process_remove_except (depID : option string) (e : exn) : M unit :=
  match depID with
  | None => raise (UnboundLocalError "depID")
  | Some depID =>
      run update_deployment_state depID "cleanup_status" "FAILED"
            (Some (str_exn e)) in
      run print ("Error processing REMOVE record: " +:+ str_exn e) in
      raise e
  end.

Definition process_remove (record : stream_record) : M unit :=
  match process_remove_depID record with
  | Raise e => process_remove_except None e
  | Ok depID =>
      try_except (process_remove_steps depID)
                 (process_remove_except (Some depID))
  end.

(** ** The entry point *)

(** The body of the [for] loop of [lambda_handler]. *)
Definition handle_record (record : stream_record) : M unit :=
  if String.eqb (eventName record) "INSERT" then process_insert record
  else if String.eqb (eventName record) "REMOVE" then process_remove record
  else ret tt.

(** [lambda_handler], applied to [event["Records"]]: an exception leaves
    the loop. *)
Fixpoint lambda_handler (records : list stream_record) : M unit :=
  match records with
  | [] => ret tt
  | record :: rest => run handle_record record in lambda_handler rest
  end.

End WithEnvironment.

End Worker.

Module CailabPost.

(** ** [_run_with_auth_retry] of [udf_helpers/cailab-post/function.py] *)

(** The part of a [requests.Response] the wrapper reads. *)
Record http_response := {
  status_code : Z;
  text : string
}.

(** What the wrapper does to the outside world, most recent first in a
    trace: a call of [request_fn], a line handed to [log_fn], a
    [time.sleep]. *)
Inductive event :=
| EvRequest
| EvLog (msg : string)
| EvSleep (delay_seconds : Q).

Abbreviation M := (M (list event)).

Definition emit (ev : event) : M unit := fun tr => (Ok tt, ev :: tr).

Definition is_request (ev : event) : bool :=
  match ev with
  | EvRequest => true
  | _ => false
  end.

Definition is_sleep (ev : event) : bool :=
  match ev with
  | EvSleep _ => true
  | _ => false
  end.

(** The line logged before a retry. *)
Definition retry_message (attempt max_attempts : Z) : string :=
  "Auth not ready yet; retrying org request (" +:+ pretty attempt +:+ "/"
  +:+ pretty max_attempts +:+ ")".

(** A probe that gives the same answer whenever it is called. *)
Definition always (status : Z) (body : string)
  : list event → result http_response :=
  λ _, Ok {| status_code := status; text := body |}.

(** [success_statuses or {200}]: [None] and the empty set both give
    [{200}]. *)
Definition allowed_successes (success_statuses : option (gset Z)) : gset Z :=
  match success_statuses with
  | Some s => if decide (s = ∅) then {[ 200%Z ]} else s
  | None => {[ 200%Z ]}
  end.

Section Retry.

(** [request_fn] with its keyword arguments applied: the probe answers or
    raises, depending on what happened before. *)
Variable request_fn : list event → result http_response.
Variable max_attempts : Z.
Variable delay_seconds : Q.
Variable success_statuses : option (gset Z).

Definition call_request_fn : M http_response :=
  fun tr => (request_fn tr, EvRequest :: tr).

(** The statements after the [try] statement in the loop body. *)
Definition pause_between (attempt : Z) : M unit :=
  if bool_decide (attempt < max_attempts)%Z then
    run emit (EvLog (retry_message attempt max_attempts)) in
    emit (EvSleep delay_seconds)
  else ret tt.

(** The [for attempt in range(1, max_attempts + 1)] loop with what follows
    it; [remaining] counts the iterations still to run, [attempt] is the
    loop variable and [last_error] the local of that name. *)
Fixpoint attempt_loop (remaining : nat) (attempt : Z)
    (last_error : option exn) : M unit :=
  match remaining with
  | O =>
      raise (RuntimeError ("Org post-creation request failed after " +:+
                           pretty max_attempts +:+ " attempts: " +:+
                           fmt_opt (str_exn <$> last_error)))
  | S remaining' =>
      fun tr =>
        match call_request_fn tr with
        | (Ok response, tr') =>
            if bool_decide (status_code response ∈
                            allowed_successes success_statuses) then
              (Ok tt, tr')
            else if negb (bool_decide (status_code response ∈
                                       ({[ 401%Z; 403%Z ]} : gset Z))) then
              (Raise (RuntimeError ("Org post-creation request failed (" +:+
                                    pretty (status_code response) +:+ "): " +:+
                                    text response)),
               tr')
            else
              (run pause_between attempt in
               attempt_loop remaining' (attempt + 1)%Z
                 (Some (RuntimeError ("Auth not ready (" +:+
                                      pretty (status_code response) +:+ "): "
                                      +:+ text response)))) tr'
        | (Raise (RequestException msg), tr') =>
            (run pause_between attempt in
             attempt_loop remaining' (attempt + 1)%Z
               (Some (RequestException msg))) tr'
        | (Raise e, tr') => (Raise e, tr')
        end
  end.

Definition _run_with_auth_retry : M unit :=
  attempt_loop (Z.to_nat max_attempts) 1%Z None.

End Retry.

End CailabPost.

Module Scenarios.
Import Worker.

(** ** Concrete worlds used to run the worker *)

Definition lab_l1 : lab_info :=
  {| ssm_base_path := "/tenantOps-dev/lab";
     group_names := ["lab-users"];
     namespace_roles := [];
     user_ns := true;
     pre_lambda := None |}.

(** Every action answers with [status], the store and the clock behave. *)
Definition env_answering (status : Z) (fault : option exn) : environment :=
  {| CREATE_NAMESPACE_LAMBDA := Some "create-namespace";
     CREATE_USER_LAMBDA := Some "create-user";
     REMOVE_NAMESPACE_LAMBDA := Some "remove-namespace";
     REMOVE_USER_LAMBDA := Some "remove-user";
     LAB_CONFIGURATION_TABLE := Some "lab-configuration";
     DEPLOYMENT_STATE_TABLE := Some "deployment-state";
     lambda_client_invoke := λ _ _ _,
       Ok {| statusCode := Some status; body := Some "done" |};
     dynamodb_fault := λ _, fault;
     time_time := λ tr, (1700000000 + Z.of_nat (length tr))%Z;
     get_lab_info := λ _ _, Ok lab_l1 |}.

(** The namespace action answers 409, the user action 200. *)
Definition env_namespace_conflict : environment :=
  {| CREATE_NAMESPACE_LAMBDA := Some "create-namespace";
     CREATE_USER_LAMBDA := Some "create-user";
     REMOVE_NAMESPACE_LAMBDA := Some "remove-namespace";
     REMOVE_USER_LAMBDA := Some "remove-user";
     LAB_CONFIGURATION_TABLE := Some "lab-configuration";
     DEPLOYMENT_STATE_TABLE := Some "deployment-state";
     lambda_client_invoke := λ _ _ p,
       match p with
       | NamespacePayload _ _ _ =>
           Ok {| statusCode := Some 409%Z; body := Some "exists" |}
       | _ => Ok {| statusCode := Some 200%Z; body := Some "done" |}
       end;
     dynamodb_fault := λ _, None;
     time_time := λ tr, (1700000000 + Z.of_nat (length tr))%Z;
     get_lab_info := λ _ _, Ok lab_l1 |}.

(** As [env_answering 200 None], but [CREATE_USER_LAMBDA_ARN] is unset. *)
Definition env_unconfigured : environment :=
  {| CREATE_NAMESPACE_LAMBDA := Some "create-namespace";
     CREATE_USER_LAMBDA := None;
     REMOVE_NAMESPACE_LAMBDA := Some "remove-namespace";
     REMOVE_USER_LAMBDA := Some "remove-user";
     LAB_CONFIGURATION_TABLE := Some "lab-configuration";
     DEPLOYMENT_STATE_TABLE := Some "deployment-state";
     lambda_client_invoke := λ _ _ _,
       Ok {| statusCode := Some 200%Z; body := Some "done" |};
     dynamodb_fault := λ _, None;
     time_time := λ tr, (1700000000 + Z.of_nat (length tr))%Z;
     get_lab_info := λ _ _, Ok lab_l1 |}.

Definition image_d1 : gmap string attr :=
  <[ "depID" := AttrS "d1" ]>
    (<[ "labID" := AttrS "l1" ]>
       (<[ "email" := AttrS "a@b.com" ]>
          (<[ "petname" := AttrS "cow" ]> ∅))).

Definition insert_d1 : stream_record :=
  {| eventName := "INSERT"; NewImage := Some image_d1; Keys := None |}.

Definition remove_of (depID : string) : stream_record :=
  {| eventName := "REMOVE";
     NewImage := None;
     Keys := Some {[ "depID" := AttrS depID ]} |}.

Definition modify_d1 : stream_record :=
  {| eventName := "MODIFY"; NewImage := Some image_d1; Keys := None |}.

Definition empty_world : world := {| table := ∅; trace := [] |}.

(** A stored record whose steps all read SUCCESS, whose namespace flag is
    "False" and whose user flag is "True". *)
Definition item_d1_user_only : gmap string attr :=
  <[ "depID" := AttrS "d1" ]>
    (<[ "create_namespace" := AttrS "SUCCESS" ]>
       (<[ "create_user" := AttrS "SUCCESS" ]>
          (<[ "created_namespace" := AttrS "False" ]>
             (<[ "created_user" := AttrS "True" ]>
                (<[ "ssm_base_path" := AttrS "/tenantOps-dev/lab" ]>
                   (<[ "email" := AttrS "a@b.com" ]>
                      (<[ "petname" := AttrS "cow" ]> ∅))))))).

Definition world_d1_user_only : world :=
  {| table := {[ "d1" := item_d1_user_only ]}; trace := [] |}.

End Scenarios.

Module UpdateScenarios.
Import Worker Scenarios.

(** ** Calls of [update_deployment_state] *)

(** The two calls [process_insert] makes one after the other when the
    namespace action has answered "exists" with a status other than 200:
    the one of line 99, then the one of line 112. *)
Definition namespace_failed_then_user_started : M unit :=
  run update_deployment_state (env_answering 200 None)
        "d1" "create_namespace" "FAILED" (Some "exists") in
  update_deployment_state (env_answering 200 None)
    "d1" "create_user" "IN_PROGRESS" (Some "Creating user").

(** The call of line 118 when the user action answered with an empty
    body. *)
Definition user_failed_with_empty_body : M unit :=
  update_deployment_state (env_answering 200 None)
    "d1" "create_user" "FAILED" (Some "").

(** The three calls in a row. *)
Definition namespace_failed_then_user_failed : M unit :=
  run namespace_failed_then_user_started in user_failed_with_empty_body.

(** A call whose step is named as an attribute the record holds. *)
Definition step_named_email : M unit :=
  update_deployment_state (env_answering 200 None)
    "d1" "email" "SUCCESS" None.

End UpdateScenarios.

Module WorkerShapes.
Import Worker.

(** ** What a run of the worker may do *)

(** The attributes [process_insert] names in its calls of
    [update_deployment_state]. *)
Definition insert_steps : list string :=
  ["deployment_status"; "create_namespace"; "create_user";
   "created_namespace"; "created_user"].

(** The attribute [process_remove] names in its calls. *)
Definition remove_steps : list string := ["cleanup_status"].

(** [t'] is [t] after some accepted updates of the item keyed [depID], each
    naming a step of [steps]. *)
Inductive updated_from (depID : string) (steps : list string)
    (t : gmap string (gmap string attr))
  : gmap string (gmap string attr) → Prop :=
| updated_none : updated_from depID steps t t
| updated_more t' step status timestamp details :
    updated_from depID steps t t' →
    step ∈ steps →
    updated_from depID steps t
      (update_item depID step status timestamp details t').

Definition is_create_namespace_call (ev : event) : bool :=
  match ev with
  | EvInvoke _ (NamespacePayload _ _ _) => true
  | _ => false
  end.

Definition is_create_user_call (ev : event) : bool :=
  match ev with
  | EvInvoke _ (UserPayload _ _ _ _ _ _) => true
  | _ => false
  end.

(** The invocations among [chronological], oldest first. *)
Definition invocations (chronological : list event) : list event :=
  List.filter is_invoke chronological.

(** At most one namespace creation, then at most one user creation, and
    nothing else. *)
Definition insert_invocations (calls : list event) : bool :=
  match calls with
  | [] => true
  | [a] => is_create_namespace_call a || is_create_user_call a
  | [a; b] => is_create_namespace_call a && is_create_user_call b
  | _ => false
  end.

(** At most one user removal, then at most one namespace removal, and
    nothing else. *)
Definition remove_invocations (calls : list event) : bool :=
  match calls with
  | [] => true
  | [a] => is_remove_user_call a || is_remove_namespace_call a
  | [a; b] => is_remove_user_call a && is_remove_namespace_call b
  | _ => false
  end.

End WorkerShapes.

Module MoreScenarios.
Import Worker Scenarios.

(** A table that holds the record of [world_d1_user_only] and one more
    record, keyed "d2". *)
Definition world_two_records : world :=
  {| table := <[ "d2" := {[ "depID" := AttrS "d2";
                            "deployment_status" := AttrS "IN_PROGRESS" ]} ]>
                {[ "d1" := item_d1_user_only ]};
     trace := [] |}.

(** An INSERT event from a stream that carries keys only. *)
Definition insert_keys_only : stream_record :=
  {| eventName := "INSERT";
     NewImage := None;
     Keys := Some {[ "depID" := AttrS "d1" ]} |}.

(** A REMOVE event whose key is a number. *)
Definition remove_numeric_key : stream_record :=
  {| eventName := "REMOVE";
     NewImage := None;
     Keys := Some {[ "depID" := AttrN "1" ]} |}.

(** A lab that wants no namespace. *)
Definition lab_plain : lab_info :=
  {| ssm_base_path := "/tenantOps-dev/lab";
     group_names := ["lab-users"];
     namespace_roles := [("shared", "ves-io-monitor")];
     user_ns := false;
     pre_lambda := None |}.

(** Every action answers [status]; the lab is [lab_plain]. *)
Definition env_plain (status : Z) : environment :=
  {| CREATE_NAMESPACE_LAMBDA := Some "create-namespace";
     CREATE_USER_LAMBDA := Some "create-user";
     REMOVE_NAMESPACE_LAMBDA := Some "remove-namespace";
     REMOVE_USER_LAMBDA := Some "remove-user";
     LAB_CONFIGURATION_TABLE := Some "lab-configuration";
     DEPLOYMENT_STATE_TABLE := Some "deployment-state";
     lambda_client_invoke := λ _ _ _,
       Ok {| statusCode := Some status; body := Some "done" |};
     dynamodb_fault := λ _, None;
     time_time := λ tr, (1700000000 + Z.of_nat (length tr))%Z;
     get_lab_info := λ _ _, Ok lab_plain |}.

(** A stored record with both flags "True" and the three attributes the
    teardown reads. *)
Definition item_d1_complete : gmap string attr :=
  <[ "created_namespace" := AttrS "True" ]> item_d1_user_only.

Definition world_d1_complete : world :=
  {| table := {[ "d1" := item_d1_complete ]}; trace := [] |}.

End MoreScenarios.

Module RetryShapes.
Import CailabPost.

(** ** Counting what a run of the retry wrapper did *)

Definition requests (new : list event) : nat :=
  length (List.filter is_request new).



(** A probe whose network is down. *)
Definition unreachable (msg : string) : list event → result http_response :=
  λ _, Raise (RequestException msg).

(** A probe that fails in its own code. *)
Definition broken (key : string) : list event → result http_response :=
  λ _, Raise (KeyError key).

(** A probe that answers [first] until it has been called [n] times, and
    [later] from then on. *)
Definition switching (n : nat) (first later : http_response)
  : list event → result http_response :=
  λ tr, if decide (requests tr < n) then Ok first else Ok later.

End RetryShapes.

Module CailabHelpers.

(** ** Pure helpers of [udf_helpers/cailab-post/function.py] *)

(** The exceptions of the helpers: those of [exn] and [ValueError]. *)
Inductive error :=
| Known (e : exn)
| ValueError (msg : string).

Definition str_error (e : error) : string :=
  match e with
  | Known e => str_exn e
  | ValueError msg => msg
  end.

Inductive outcome (A : Type) :=
| Returned (a : A)
| Thrown (e : error).
Arguments Returned {A} a.
Arguments Thrown {A} e.

(** [needle in s] *)
Fixpoint contains (needle s : string) : bool :=
  String.prefix needle s
  || match s with
     | EmptyString => false
     | String _ rest => contains needle rest
     end.

(** The character occurs in the string. *)
Fixpoint has_char (c : ascii) (s : string) : bool :=
  match s with
  | EmptyString => false
  | String c' rest => Ascii.eqb c' c || has_char c rest
  end.

(** [s.split(sep, 1)] for a one-character [sep] that occurs in [s]: the
    text before the first [sep] and the text after it. *)
Fixpoint split_once (sep : ascii) (s : string) : string * string :=
  match s with
  | EmptyString => (EmptyString, EmptyString)
  | String c rest =>
      if Ascii.eqb c sep then (EmptyString, rest)
      else (String c (split_once sep rest).1, (split_once sep rest).2)
  end.

Definition add_udflab_tag (email : string) : outcome string :=
  if negb (contains "@" email) then
    Thrown (ValueError ("Invalid email address: " +:+ email))
  else
    let (local_part, domain) := split_once "@" email in
    if contains "+udflab" local_part then Returned email
    else Returned (local_part +:+ "+udflab@" +:+ domain).

(** [s.rstrip("/")] *)
Fixpoint rstrip_slash (s : string) : string :=
  match s with
  | EmptyString => EmptyString
  | String c rest =>
      if Ascii.eqb c "/" && String.eqb (rstrip_slash rest) EmptyString
      then EmptyString
      else String c (rstrip_slash rest)
  end.

Definition DEFAULT_CALYPSOAI_URL : string := "https://aisec.f5se.com".

(** [_resolve_cai_url]; [CALYPSOAI_URL] is [os.environ.get("CALYPSOAI_URL")].
    [x or y] takes [x] unless it is [None] or empty. *)
Definition _resolve_cai_url (CALYPSOAI_URL : option string)
    (url : option string) : string :=
  let resolved :=
    if truthy url then fmt_opt url
    else if truthy CALYPSOAI_URL then fmt_opt CALYPSOAI_URL
    else DEFAULT_CALYPSOAI_URL in
  rstrip_slash resolved.

(** The string ends with ["/"]. *)
Fixpoint ends_with_slash (s : string) : bool :=
  match s with
  | EmptyString => false
  | String c EmptyString => Ascii.eqb c "/"
  | String _ rest => ends_with_slash rest
  end.

(** [n] times ["/"]. *)
Fixpoint slashes (n : nat) : string :=
  match n with
  | O => EmptyString
  | S n => String "/" (slashes n)
  end.

(** A value of the payload dictionary: a string, or any other JSON value
    with the text [str] gives for it. *)
Inductive value :=
| VStr (s : string)
| VOther (shown : string).

(** [str(v)] *)
Definition str_value (v : value) : string :=
  match v with
  | VStr s => s
  | VOther shown => shown
  end.

Section Validation.

(** [not s.strip()]: the string has no character but white space.  Which
    characters are white space is Python's matter; the validation is
    stated for whatever [blank] is. *)
Variable blank : string → bool.

Definition required_fields : list string :=
  ["ssm_base_path"; "email"; "petname"].

(** [", ".join(fields)] *)
Fixpoint join_comma (fields : list string) : string :=
  match fields with
  | [] => EmptyString
  | [f] => f
  | f :: rest => f +:+ ", " +:+ join_comma rest
  end.

(** [validate_payload]: a field is missing when the payload has no such
    key, and empty when the [str] of its value is blank. *)
Definition validate_payload (payload : gmap string value) : result unit :=
  let missing_fields :=
    List.filter (λ field, negb (bool_decide (is_Some (payload !! field))))
      required_fields in
  if negb (bool_decide (missing_fields = [])) then
    Raise (RuntimeError ("Missing required fields in payload: "
                         +:+ join_comma missing_fields))
  else
    let empty_fields :=
      List.filter
        (λ field,
           blank (default EmptyString (str_value <$> payload !! field)))
        required_fields in
    if negb (bool_decide (empty_fields = [])) then
      Raise (RuntimeError ("Empty required fields in payload: "
                           +:+ join_comma empty_fields))
    else Ok tt.

End Validation.

(** White space of ASCII text, for running the validation. *)
Definition ascii_space (c : ascii) : bool :=
  let n := nat_of_ascii c in
  (Nat.leb 9 n && Nat.leb n 13) || (Nat.leb 28 n && Nat.leb n 32).

Fixpoint ascii_blank (s : string) : bool :=
  match s with
  | EmptyString => true
  | String c rest => ascii_space c && ascii_blank rest
  end.

(** The payload of the module's own local test, with one more key. *)
Definition test_payload : gmap string value :=
  {[ "ssm_base_path" := VStr "/tenantOps-dev/cai-lab";
     "email" := VStr "test@test.com";
     "petname" := VStr "cow";
     "attempt" := VOther "2" ]}.

End CailabHelpers.

Module SsmParameters.
Import CailabHelpers.

(** ** [get_parameters] of [udf_helpers/cailab-post/function.py] *)

(** What [ssm.get_parameters] answers: the names it did not find, when the
    key is there, and the parameters it found, each with its [Name] and
    its [Value]. *)
Record ssm_response := {
  InvalidParameters : option (list string);
  Parameters : list (string * string)
}.

(** [name.split("/")[-1]]: the text after the last ["/"], all of [name]
    when there is none. *)
Fixpoint last_segment (name : string) : string :=
  match name with
  | EmptyString => EmptyString
  | String c rest =>
      if has_char "/" rest then last_segment rest
      else if Ascii.eqb c "/" then rest
      else name
  end.

(** The dictionary comprehension: entries are stored in the order of the
    answer, a later one replacing an earlier one with the same key. *)
Definition parameters_by_segment (parameters : list (string * string))
  : gmap string string :=
  foldl (λ d param, <[ last_segment param.1 := param.2 ]> d) ∅ parameters.

(** [get_parameters]; [ssm_get_parameters] stands for the session, the
    client and its call, which may raise. *)
Definition get_parameters
    (ssm_get_parameters : list string → result ssm_response)
    (parameters : list string) : result (gmap string string) :=
  let attempt : result (gmap string string) :=
    match ssm_get_parameters parameters with
    | Raise e => Raise e
    | Ok response =>
        let invalid := default [] (InvalidParameters response) in
        if negb (bool_decide (invalid = [])) then
          Raise (RuntimeError ("Missing parameters in SSM: "
                               +:+ join_comma invalid))
        else Ok (parameters_by_segment (Parameters response))
    end in
  match attempt with
  | Ok d => Ok d
  | Raise e =>
      Raise (RuntimeError ("Failed to fetch parameters: " +:+ str_exn e))
  end.


End SsmParameters.

Module OrgLookup.

(** ** [_lookup_org_id] of [udf_helpers/cailab-post/delete_function.py] *)

(** One answer of [table.scan]: the items that pass the filter on [email]
    and [petname], and the key to go on from, when the scan is not over. *)
Record page := {
  Items : list (gmap string string);
  LastEvaluatedKey : option (gmap string string)
}.

(** The state of a scan: the answers DynamoDB will give to the next calls,
    in order (a call past the last one finds nothing), and the
    [ExclusiveStartKey] of the calls made so far, most recent first. *)
Record scan_state := {
  unread : list (result page);
  scans : list (option (gmap string string))
}.

(** [if start_key:] on a key that may be [None] or an empty dictionary. *)
Definition key_given (start_key : option (gmap string string)) : bool :=
  match start_key with
  | Some k => negb (bool_decide (k = ∅))
  | None => false
  end.

(** The [while True] loop.  Each iteration takes one answer from the
    state; the recursion is on the answers left. *)
Fixpoint scan_loop (answers : list (result page))
    (matches : list (gmap string string))
    (start_key : option (gmap string string))
    (done : list (option (gmap string string)))
  : result (list (gmap string string)) * scan_state :=
  let sent := if key_given start_key then start_key else None in
  match answers with
  | [] => (Ok matches, {| unread := []; scans := sent :: done |})
  | Raise e :: rest =>
      (Raise e, {| unread := rest; scans := sent :: done |})
  | Ok response :: rest =>
      let matches := matches ++ Items response in
      if bool_decide (1 < length matches) then
        (Ok matches, {| unread := rest; scans := sent :: done |})
      else if negb (key_given (LastEvaluatedKey response)) then
        (Ok matches, {| unread := rest; scans := sent :: done |})
      else scan_loop rest matches (LastEvaluatedKey response) (sent :: done)
  end.

Definition _lookup_org_id (email petname : string)
  : M scan_state (option string) :=
  fun st =>
    match scan_loop (unread st) [] None (scans st) with
    | (Raise e, st') => (Raise e, st')
    | (Ok matches, st') =>
        match matches with
        | [] => (Ok None, st')
        | [item] => (Ok (item !! "org_id"), st')
        | _ =>
            (Raise (RuntimeError ("Multiple orgs found for " +:+ email +:+
                                  "/" +:+ petname +:+ ".")), st')
        end
    end.

(** Every answer is a page, and every page but the last names the key to
    go on from. *)
Fixpoint paginated (answers : list (result page)) : bool :=
  match answers with
  | [] => true
  | [Ok _] => true
  | Ok response :: rest =>
      key_given (LastEvaluatedKey response) && paginated rest
  | Raise _ :: _ => false
  end.

(** The items of all the pages. *)
Fixpoint all_items (answers : list (result page))
  : list (gmap string string) :=
  match answers with
  | [] => []
  | Ok response :: rest => Items response ++ all_items rest
  | Raise _ :: rest => all_items rest
  end.

Definition org (org_id : string) : gmap string string :=
  {[ "org_id" := org_id; "email" := "a+udflab@b.com"; "petname" := "cow" ]}.

Definition key_after (org_id : string) : option (gmap string string) :=
  Some {[ "org_id" := org_id ]}.

(** Three pages: nothing on the first, one org on the second, the same
    pair again on the third. *)
Definition three_pages : list (result page) :=
  [Ok {| Items := []; LastEvaluatedKey := key_after "o-100" |};
   Ok {| Items := [org "o-117"]; LastEvaluatedKey := key_after "o-200" |};
   Ok {| Items := [org "o-230"]; LastEvaluatedKey := None |}].

End OrgLookup.

Module WorkerFacts.
Import Worker.

(** ** Writes to the deployment state table *)

Lemma truthy_Some_nonempty (d : string) : d ≠ "" → truthy (Some d) = true.
Proof.
  intros Hd. simpl. apply negb_true_iff. by apply String.eqb_neq.
Qed.

Lemma update_paths_ok_fresh (step : string) (details : option string) :
  step ≠ "depID" → step ≠ "updated_at" → step ≠ "details" →
  update_paths_ok step details = true.
Proof.
  intros H1 H2 H3. unfold update_paths_ok.
  apply String.eqb_neq in H1, H2, H3. rewrite H1, H2. simpl.
  destruct details; [by rewrite H3 | done].
Qed.

(** When DynamoDB raises nothing and the SET paths are accepted, the call
    returns and the table holds the updated item. *)
Lemma update_deployment_state_accepted env depID step status details w :
  dynamodb_fault env (trace w) = None →
  update_paths_ok step (if truthy details then details else None) = true →
  update_deployment_state env depID step status details w =
    (Ok tt,
     {| table := update_item depID step status
                   (pretty (time_time env (trace w)))
                   (if truthy details then details else None) (table w);
        trace := EvUpdateItem depID step status
                   (pretty (time_time env (trace w)))
                   (if truthy details then details else None) true
                 :: trace w |}).
Proof.
  intros Hfault Hpaths. unfold update_deployment_state.
  by rewrite Hfault, Hpaths.
Qed.

(** When DynamoDB raises, the exception comes back wrapped and the table is
    as before. *)
Lemma update_deployment_state_fault env depID step status details w e :
  dynamodb_fault env (trace w) = Some e →
  update_deployment_state env depID step status details w =
    (Raise (RuntimeError ("Failed to update deployment state in DynamoDB: "
                          +:+ str_exn e)),
     {| table := table w;
        trace := EvUpdateItem depID step status
                   (pretty (time_time env (trace w)))
                   (if truthy details then details else None) false
                 :: trace w |}).
Proof.
  intros Hfault. unfold update_deployment_state. by rewrite Hfault.
Qed.

Lemma update_item_other depID step status timestamp details
    (t : gmap string (gmap string attr)) (other : string) :
  other ≠ depID →
  update_item depID step status timestamp details t !! other = t !! other.
Proof. intros Hne. unfold update_item. by rewrite lookup_insert_ne. Qed.

Lemma update_item_lookup depID step status timestamp details
    (t : gmap string (gmap string attr)) :
  step ≠ "updated_at" → step ≠ "details" →
  ∃ item : gmap string attr,
    update_item depID step status timestamp details t !! depID = Some item
    ∧ item !! step = Some (AttrS status)
    ∧ item !! "updated_at" = Some (AttrN timestamp)
    ∧ item !! "details" =
        match details with
        | Some d => Some (AttrS d)
        | None => default {[ "depID" := AttrS depID ]} (t !! depID) !! "details"
        end
    ∧ (∀ name : string,
         name ≠ step → name ≠ "updated_at" → name ≠ "details" →
         item !! name =
           default {[ "depID" := AttrS depID ]} (t !! depID) !! name).
Proof.
  intros H1 H2. unfold update_item. eexists. split.
  { apply lookup_insert_eq. }
  destruct details as [d|]; repeat split.
  - by rewrite lookup_insert_ne, lookup_insert_ne, lookup_insert_eq.
  - by rewrite lookup_insert_ne, lookup_insert_eq.
  - by rewrite lookup_insert_eq.
  - intros name N1 N2 N3.
    by rewrite !lookup_insert_ne.
  - by rewrite lookup_insert_ne, lookup_insert_eq.
  - by rewrite lookup_insert_eq.
  - rewrite !lookup_insert_ne; done.
  - intros name N1 N2 N3.
    by rewrite !lookup_insert_ne.
Qed.

Lemma field_update_item_step depID step status timestamp details
    (t : gmap string (gmap string attr)) :
  step ≠ "updated_at" → step ≠ "details" →
  field (update_item depID step status timestamp details t) depID step
  = Some (AttrS status).
Proof.
  intros H1 H2.
  destruct (update_item_lookup depID step status timestamp details t H1 H2)
    as (item & Hitem & Hstep & _).
  unfold field. by rewrite Hitem.
Qed.

Lemma field_update_item_details depID step status timestamp d
    (t : gmap string (gmap string attr)) :
  step ≠ "updated_at" → step ≠ "details" →
  field (update_item depID step status timestamp (Some d) t) depID "details"
  = Some (AttrS d).
Proof.
  intros H1 H2.
  destruct (update_item_lookup depID step status timestamp (Some d) t H1 H2)
    as (item & Hitem & _ & _ & Hdetails & _).
  unfold field. by rewrite Hitem.
Qed.

Lemma field_update_item_other depID step status timestamp details
    (t : gmap string (gmap string attr)) (name : string) :
  name ≠ step → name ≠ "updated_at" → name ≠ "details" → name ≠ "depID" →
  field (update_item depID step status timestamp details t) depID name
  = field t depID name.
Proof.
  intros N1 N2 N3 N4. unfold field, update_item.
  rewrite lookup_insert_eq. simpl.
  assert (default {[ "depID" := AttrS depID ]} (t !! depID) !! name
          = t !! depID ≫= (.!! name)) as <-.
  { destruct (t !! depID); simpl; [done |]. by rewrite lookup_singleton_ne. }
  destruct details; by rewrite !lookup_insert_ne.
Qed.

(** ** Following one run *)

Lemma update_deployment_state_cases env depID step status details w :
  (∃ timestamp details',
     update_deployment_state env depID step status details w =
       (Ok tt,
        {| table := update_item depID step status timestamp details' (table w);
           trace := EvUpdateItem depID step status timestamp details' true
                    :: trace w |}))
  ∨ (∃ timestamp details' e,
       update_deployment_state env depID step status details w =
         (Raise e,
          {| table := table w;
             trace := EvUpdateItem depID step status timestamp details' false
                      :: trace w |})).
Proof.
  unfold update_deployment_state.
  destruct (dynamodb_fault env (trace w)); [right; eauto |].
  destruct (update_paths_ok _ _); [left | right]; eauto.
Qed.

Lemma invoke_lambda_cases env function_name p w :
  ∃ r, invoke_lambda env function_name p w =
         (r, {| table := table w;
                trace := EvInvoke function_name p :: trace w |}).
Proof.
  unfold invoke_lambda.
  destruct (lambda_client_invoke env (trace w) function_name p); eauto.
Qed.

Lemma invoke_lambda_returns env function_name p w r :
  lambda_client_invoke env (trace w) function_name p = Ok r →
  invoke_lambda env function_name p w =
    (Ok r, {| table := table w;
              trace := EvInvoke function_name p :: trace w |}).
Proof. intros Hr. unfold invoke_lambda. by rewrite Hr. Qed.

Lemma since_here (P : list event → Prop) tr0 : P [] → since tr0 tr0 P.
Proof. intros H. by exists []. Qed.

Lemma since_elim (P : list event → Prop) tr tr0 :
  since tr0 tr P → ∃ new, tr = new ++ tr0 ∧ P new.
Proof. done. Qed.

Lemma since_step (P : list event → Prop) ev tr tr0 :
  since tr0 tr (λ new, P (ev :: new)) → since tr0 (ev :: tr) P.
Proof. intros (new & -> & H). by exists (ev :: new). Qed.

(** One step of a run whose collaborators are unknown: split on what the
    next call or test yields. *)
Ltac exec_step :=
  match goal with
  | |- context [update_deployment_state ?env ?d ?s ?st ?det ?w] =>
      destruct (update_deployment_state_cases env d s st det w)
        as [(? & ? & ->)|(? & ? & ? & ->)]
  | |- context [invoke_lambda ?env ?fn ?p ?w] =>
      let r := fresh "r" in
      destruct (invoke_lambda_cases env fn p w) as [r ->]; destruct r
  | |- context [match ?x with _ => _ end] =>
      lazymatch x with
      | context [match _ with _ => _ end] => fail
      | _ => destruct x eqn:?
      end
  | |- context [if ?x then _ else _] =>
      lazymatch x with
      | context [match _ with _ => _ end] => fail
      | context [if _ then _ else _] => fail
      | _ => destruct x eqn:?
      end
  end.

Ltac exec := repeat (exec_step; cbn [fst snd trace table]).

(** The side conditions of [update_deployment_state_accepted] in a run
    whose store is known to raise nothing. *)
Ltac accepted :=
  first
    [ reflexivity
    | cbn [trace];
      first [ assumption
            | match goal with
              | H : ∀ tr, dynamodb_fault _ tr = None |- _ => apply H
              end ]
    | apply update_paths_ok_fresh; done ].

(** An accepted write in such a run; the timestamp is abstracted so that
    the goal stays small. *)
Ltac write_ok :=
  rewrite update_deployment_state_accepted by accepted;
  cbn [fst snd trace table];
  repeat match goal with
         | |- context [pretty (time_time ?e ?tr)] =>
             generalize (pretty (time_time e tr)); intro
         end.

(** ** Status sequences *)

Lemma statuses_of_absent step pairs :
  step ∉ pairs.*1 → statuses_of step pairs = [].
Proof.
  induction pairs as [|[s st] pairs IH]; [done |].
  intros Hnot. rewrite fmap_cons, not_elem_of_cons in Hnot.
  destruct Hnot as [Hne Hnot]. unfold statuses_of in *. simpl.
  destruct (String.eqb_spec s step) as [->|_]; [done |]. by apply IH.
Qed.

Lemma steps_forward_all pairs step :
  steps_forward pairs = true → only_forward (statuses_of step pairs) = true.
Proof.
  intros Hall. destruct (decide (step ∈ pairs.*1)) as [Hin|Hnot].
  - unfold steps_forward in Hall. rewrite forallb_forall in Hall.
    apply Hall. by apply list_elem_of_In.
  - by rewrite statuses_of_absent.
Qed.

Lemma written_statuses_one_record d depID step evs :
  Forall (updates_record d) evs →
  written_statuses depID step evs =
    if decide (d = depID) then statuses_of step (omap written_pair evs)
    else [].
Proof.
  induction 1 as [|ev evs Hev _ IH].
  { by destruct (decide _). }
  change (written_statuses depID step (ev :: evs)) with
    (match written_status depID step ev with
     | Some status => status :: written_statuses depID step evs
     | None => written_statuses depID step evs
     end).
  rewrite IH. clear IH.
  destruct ev as [| d' s st ts det [] | |]; simpl in *; try done.
  subst d'. destruct (decide (d = depID)) as [->|Hne].
  - unfold statuses_of. simpl.
    destruct (String.eqb_spec s step) as [->|Hs].
    + by rewrite decide_True.
    + rewrite decide_False; [done | by intros [_ ?]].
  - rewrite decide_False; [done | by intros [? _]].
Qed.

Lemma forward_check d evs depID step :
  Forall (updates_record d) evs →
  steps_forward (omap written_pair evs) = true →
  only_forward (written_statuses depID step evs) = true.
Proof.
  intros Hd Hall. rewrite (written_statuses_one_record d) by done.
  destruct (decide _); [by apply steps_forward_all | done].
Qed.

(** The checker does tell a reverse transition. *)
Example reverse_transition_rejected :
  only_forward ["IN_PROGRESS"; "SUCCESS"; "IN_PROGRESS"] = false.
Proof. reflexivity. Qed.

(** C9. In every run of [process_insert], whatever the event, the store,
    the lab configuration and the invoked actions do, the statuses written
    into any one field of any one record follow each other by forward
    transitions only: IN_PROGRESS after PENDING, SUCCESS or FAILED after
    IN_PROGRESS. *)
Theorem insert_statuses_only_forward env record w depID step :
  ∃ new,
    trace (process_insert env record w).2 = new ++ trace w
    ∧ only_forward (written_statuses depID step (rev new)) = true.
Proof.
  change (since (trace w) (trace (process_insert env record w).2)
            (λ new, only_forward (written_statuses depID step (rev new))
                    = true)).
  unfold process_insert, process_insert_depID, process_insert_except,
    try_except, process_insert_steps, create_namespace_step,
    create_user_step, print, emit, bind, lift, ret, raise, getitem_S,
    getitem, attr_S.
  exec.
  all: repeat apply since_step; apply since_here.
  all: cbn [rev app].
  all: try done.
  all: match goal with
       | |- context [EvUpdateItem ?d _ _ _ _ _] =>
           apply (forward_check d);
           [repeat (constructor; [done |]); constructor
           | vm_compute; reflexivity]
       end.
Qed.

(** ** [update_deployment_state] *)

(** C8, the claim as stated fails, in three ways.
    Details are replaced, not appended: after the update of the namespace
    step with details "exists" and the update of the user step with details
    "Creating user", both accepted, the record's [details] is "Creating
    user" alone, while both statuses are there.
    Empty details are not written: a call that passes the empty string
    returns normally and leaves [details] as it was, absent on a new record
    and the text of the step before on the record above.
    Statuses are not kept in a map of their own: the record has no
    [stepStatuses] attribute, and a call whose step is "email" replaces the
    address the record holds by the status. *)
Lemma details_replaced_and_steps_top_level :
  ((UpdateScenarios.namespace_failed_then_user_started
      Scenarios.empty_world).1 = Ok tt
   ∧ field (table (UpdateScenarios.namespace_failed_then_user_started
                     Scenarios.empty_world).2)
       "d1" "details" = Some (AttrS "Creating user")
   ∧ field (table (UpdateScenarios.namespace_failed_then_user_started
                     Scenarios.empty_world).2)
       "d1" "create_namespace" = Some (AttrS "FAILED")
   ∧ field (table (UpdateScenarios.namespace_failed_then_user_started
                     Scenarios.empty_world).2)
       "d1" "create_user" = Some (AttrS "IN_PROGRESS")
   ∧ field (table (UpdateScenarios.namespace_failed_then_user_started
                     Scenarios.empty_world).2)
       "d1" "stepStatuses" = None)
  ∧ ((UpdateScenarios.user_failed_with_empty_body
        Scenarios.empty_world).1 = Ok tt
     ∧ field (table (UpdateScenarios.user_failed_with_empty_body
                       Scenarios.empty_world).2)
         "d1" "details" = None
     ∧ field (table (UpdateScenarios.user_failed_with_empty_body
                       Scenarios.empty_world).2)
         "d1" "create_user" = Some (AttrS "FAILED"))
  ∧ ((UpdateScenarios.namespace_failed_then_user_failed
        Scenarios.empty_world).1 = Ok tt
     ∧ field (table (UpdateScenarios.namespace_failed_then_user_failed
                       Scenarios.empty_world).2)
         "d1" "details" = Some (AttrS "Creating user")
     ∧ field (table (UpdateScenarios.namespace_failed_then_user_failed
                       Scenarios.empty_world).2)
         "d1" "create_user" = Some (AttrS "FAILED"))
  ∧ (field (table Scenarios.world_d1_user_only) "d1" "email"
     = Some (AttrS "a@b.com")
     ∧ (UpdateScenarios.step_named_email
          Scenarios.world_d1_user_only).1 = Ok tt
     ∧ field (table (UpdateScenarios.step_named_email
                       Scenarios.world_d1_user_only).2)
         "d1" "email" = Some (AttrS "SUCCESS")
     ∧ field (table (UpdateScenarios.step_named_email
                       Scenarios.world_d1_user_only).2)
         "d1" "stepStatuses" = None).
Proof. repeat split; vm_compute; reflexivity. Qed.

(** C8, amended. When DynamoDB raises nothing and [step] is none of the
    attributes the update manages itself, [update_deployment_state] returns
    and the table holds a record for [depID] (created with its key when it
    was absent) in which the attribute named [step] is [status],
    [updated_at] is the current time, and [details] is the given text,
    whatever it was before, when that text is not empty and is as before
    otherwise; every other attribute of the record and every other record
    are as before. *)
Theorem update_deployment_state_upserts env depID step status details w :
  dynamodb_fault env (trace w) = None →
  step ≠ "depID" → step ≠ "updated_at" → step ≠ "details" →
  ∃ w' item,
    update_deployment_state env depID step status details w = (Ok tt, w')
    ∧ table w' !! depID = Some item
    ∧ (table w !! depID = None → item !! "depID" = Some (AttrS depID))
    ∧ item !! step = Some (AttrS status)
    ∧ item !! "updated_at"
      = Some (AttrN (pretty (time_time env (trace w))))
    ∧ (∀ d, details = Some d → d ≠ "" → item !! "details" = Some (AttrS d))
    ∧ (truthy details = false →
       item !! "details" = table w !! depID ≫= (.!! "details"))
    ∧ (∀ name, name ≠ step → name ≠ "updated_at" → name ≠ "details" →
       item !! name
       = default {[ "depID" := AttrS depID ]} (table w !! depID) !! name)
    ∧ (∀ other, other ≠ depID → table w' !! other = table w !! other).
Proof.
  intros Hfault H1 H2 H3.
  rewrite update_deployment_state_accepted
    by auto using update_paths_ok_fresh.
  set (details' := if truthy details then details else None).
  destruct (update_item_lookup depID step status
              (pretty (time_time env (trace w))) details' (table w) H2 H3)
    as (item & Hitem & Hstep & Htime & Hdetails & Hrest).
  eexists _, item. split; [reflexivity |]. simpl.
  split; [done |]. split.
  { intros Habsent. rewrite Hrest by done. rewrite Habsent. simpl.
    apply lookup_singleton_eq. }
  split; [done |]. split; [done |]. split.
  { intros d -> Hd. rewrite Hdetails. unfold details'.
    by rewrite truthy_Some_nonempty. }
  split.
  { intros Hfalsy. rewrite Hdetails. unfold details'. rewrite Hfalsy.
    destruct (table w !! depID); simpl; [done |].
    by rewrite lookup_singleton_ne. }
  split; [done |].
  intros other Hother. by apply update_item_other.
Qed.

Lemma update_deployment_state_upserts_witness :
  ∃ w' item,
    update_deployment_state (Scenarios.env_answering 200 None)
      "d1" "create_user" "SUCCESS" (Some "created") Scenarios.empty_world
    = (Ok tt, w')
    ∧ table w' !! "d1" = Some item
    ∧ item !! "depID" = Some (AttrS "d1")
    ∧ item !! "create_user" = Some (AttrS "SUCCESS")
    ∧ item !! "updated_at" = Some (AttrN "1700000000")
    ∧ item !! "details" = Some (AttrS "created").
Proof.
  destruct (update_deployment_state_upserts
              (Scenarios.env_answering 200 None)
              "d1" "create_user" "SUCCESS" (Some "created")
              Scenarios.empty_world)
    as (w' & item & Hrun & Hitem & Hkey & Hstep & Htime & Hdetails & _);
    [reflexivity | done | done | done |].
  exists w', item. split; [exact Hrun |]. split; [exact Hitem |].
  split; [apply Hkey; reflexivity |]. split; [exact Hstep |].
  split; [exact Htime |]. apply (Hdetails "created"); [reflexivity | done].
Defined.

(** ** The entry point *)

Lemma handle_record_skips env record w :
  eventName record ≠ "INSERT" → eventName record ≠ "REMOVE" →
  handle_record env record w = (Ok tt, w).
Proof.
  intros Hi Hr. unfold handle_record.
  apply String.eqb_neq in Hi, Hr. by rewrite Hi, Hr.
Qed.

(** C10. A record whose [eventName] is neither "INSERT" nor "REMOVE" is
    skipped: handling it returns at once and leaves the table and the trace
    (hence no invocation and no write) as they were, and a batch that
    contains it is processed exactly as the batch without it. *)
Theorem other_events_are_skipped env before record after w :
  eventName record ≠ "INSERT" → eventName record ≠ "REMOVE" →
  handle_record env record w = (Ok tt, w)
  ∧ lambda_handler env (before ++ record :: after) w
    = lambda_handler env (before ++ after) w.
Proof.
  intros Hi Hr. split; [by apply handle_record_skips |].
  revert w. induction before as [|r before IH]; intros w; simpl.
  - unfold bind. by rewrite handle_record_skips.
  - unfold bind. destruct (handle_record env r w) as [[[]|e] w1]; [|done].
    apply IH.
Qed.

Lemma other_events_are_skipped_witness :
  handle_record (Scenarios.env_answering 200 None) Scenarios.modify_d1
    Scenarios.empty_world = (Ok tt, Scenarios.empty_world)
  ∧ lambda_handler (Scenarios.env_answering 200 None)
      ([Scenarios.insert_d1] ++ Scenarios.modify_d1 :: [Scenarios.remove_of "d1"])
      Scenarios.empty_world
    = lambda_handler (Scenarios.env_answering 200 None)
        ([Scenarios.insert_d1] ++ [Scenarios.remove_of "d1"])
        Scenarios.empty_world.
Proof.
  apply (other_events_are_skipped (Scenarios.env_answering 200 None)
           [Scenarios.insert_d1] Scenarios.modify_d1
           [Scenarios.remove_of "d1"] Scenarios.empty_world); done.
Defined.

(** ** The teardown workflow *)

Lemma flag_is_True_empty name : flag_is_True ∅ name = false.
Proof. unfold flag_is_True. by rewrite lookup_empty. Qed.

Lemma flag_is_True_true (t : gmap string (gmap string attr)) depID name :
  flag_is_True (default ∅ (t !! depID)) name = true →
  field t depID name = Some (AttrS "True").
Proof.
  unfold flag_is_True, field. intros H. apply bool_decide_eq_true in H.
  destruct (t !! depID) as [item|]; simpl in *.
  - destruct (item !! name) as [[v|n]|]; simpl in *; congruence.
  - by rewrite lookup_empty in H.
Qed.

(** C2, the claim as stated fails: a REMOVE event for a [depID] the table
    does not hold makes [process_remove] return normally, and the table then
    holds a record for that [depID] marked COMPLETED. *)
Lemma remove_unknown_depID_writes_completed :
  (process_remove (Scenarios.env_answering 200 None)
     (Scenarios.remove_of "ghost") Scenarios.empty_world).1 = Ok tt
  ∧ field (table (process_remove (Scenarios.env_answering 200 None)
                    (Scenarios.remove_of "ghost") Scenarios.empty_world).2)
      "ghost" "cleanup_status" = Some (AttrS "COMPLETED").
Proof. split; vm_compute; reflexivity. Qed.

(** C2, amended. For a REMOVE event whose [depID] has no record in the
    table, when DynamoDB raises nothing, [process_remove] reads the table
    once, invokes no action, returns without raising, and creates a record
    for [depID] whose [cleanup_status] is COMPLETED and whose [details] is
    "Cleanup completed successfully". *)
Theorem remove_unknown_depID_completes env record depID w :
  process_remove_depID record = Ok depID →
  table w !! depID = None →
  dynamodb_fault env (trace w) = None →
  dynamodb_fault env (EvGetItem depID :: trace w) = None →
  ∃ w' timestamp,
    process_remove env record w = (Ok tt, w')
    ∧ trace w' =
        [EvUpdateItem depID "cleanup_status" "COMPLETED" timestamp
           (Some "Cleanup completed successfully") true;
         EvGetItem depID] ++ trace w
    ∧ field (table w') depID "cleanup_status" = Some (AttrS "COMPLETED")
    ∧ field (table w') depID "details"
      = Some (AttrS "Cleanup completed successfully")
    ∧ field (table w') depID "depID" = Some (AttrS depID).
Proof.
  intros Hdep Habsent Hget Hput.
  unfold process_remove. rewrite Hdep.
  unfold try_except, process_remove_steps, bind, get_item.
  rewrite Hget, Habsent. cbn [default]. rewrite !flag_is_True_empty.
  unfold ret. cbn beta iota.
  rewrite update_deployment_state_accepted by accepted.
  eexists _, _. split; [reflexivity |]. cbn [trace table].
  change (if truthy (Some "Cleanup completed successfully")
          then Some "Cleanup completed successfully" else None)
    with (Some "Cleanup completed successfully").
  split; [reflexivity |].
  split; [by apply field_update_item_step |].
  split; [by apply field_update_item_details |].
  unfold field, update_item. rewrite lookup_insert_eq, Habsent. simpl.
  rewrite !lookup_insert_ne by done. apply lookup_singleton_eq.
Qed.

Lemma remove_unknown_depID_completes_witness :
  ∃ w' timestamp,
    process_remove (Scenarios.env_answering 200 None)
      (Scenarios.remove_of "ghost") Scenarios.empty_world = (Ok tt, w')
    ∧ trace w' =
        [EvUpdateItem "ghost" "cleanup_status" "COMPLETED" timestamp
           (Some "Cleanup completed successfully") true;
         EvGetItem "ghost"]
    ∧ field (table w') "ghost" "cleanup_status" = Some (AttrS "COMPLETED").
Proof.
  destruct (remove_unknown_depID_completes
              (Scenarios.env_answering 200 None)
              (Scenarios.remove_of "ghost") "ghost" Scenarios.empty_world)
    as (w' & timestamp & Hrun & Htrace & Hstatus & _);
    [reflexivity | reflexivity | reflexivity | reflexivity |].
  exists w', timestamp. split; [exact Hrun |]. split; [exact Htrace |].
  exact Hstatus.
Defined.

(** C5. For a REMOVE event whose [depID] can be read, whatever else the
    stored record holds (its step statuses in particular) and whatever the
    store and the actions do: when the record's [created_namespace] is not
    the string "True", no event of the run is a call of the
    namespace-removal action, and when its [created_user] is not "True",
    none is a call of the user-removal action. *)
Theorem teardown_follows_flags env record depID w :
  process_remove_depID record = Ok depID →
  ∃ new,
    trace (process_remove env record w).2 = new ++ trace w
    ∧ (field (table w) depID "created_namespace" ≠ Some (AttrS "True") →
       Forall (λ ev, is_remove_namespace_call ev = false) new)
    ∧ (field (table w) depID "created_user" ≠ Some (AttrS "True") →
       Forall (λ ev, is_remove_user_call ev = false) new).
Proof.
  intros Hdep.
  change (since (trace w) (trace (process_remove env record w).2)
            (λ new,
               (field (table w) depID "created_namespace"
                ≠ Some (AttrS "True") →
                Forall (λ ev, is_remove_namespace_call ev = false) new)
               ∧ (field (table w) depID "created_user"
                  ≠ Some (AttrS "True") →
                  Forall (λ ev, is_remove_user_call ev = false) new))).
  unfold process_remove. rewrite Hdep.
  unfold process_remove_except, try_except, process_remove_steps, get_item,
    print, emit, bind, lift, ret, raise.
  cbv zeta.
  exec.
  all: repeat apply since_step; apply since_here.
  all: split; intros Hflag;
    first [ by repeat constructor
          | exfalso; apply Hflag; by apply flag_is_True_true ].
Qed.

Lemma teardown_follows_flags_witness :
  ∃ new,
    trace (process_remove (Scenarios.env_answering 200 None)
             (Scenarios.remove_of "d1") Scenarios.world_d1_user_only).2
    = new ++ []
    ∧ Forall (λ ev, is_remove_namespace_call ev = false) new.
Proof.
  destruct (teardown_follows_flags (Scenarios.env_answering 200 None)
              (Scenarios.remove_of "d1") "d1" Scenarios.world_d1_user_only)
    as (new & Htrace & Hns & _); [reflexivity |].
  exists new. split; [exact Htrace |].
  apply Hns. vm_compute. discriminate.
Defined.

(** In that world the user removal is invoked, so the run is not one that
    invokes nothing. *)
Example teardown_user_only_trace :
  List.filter is_invoke
    (trace (process_remove (Scenarios.env_answering 200 None)
              (Scenarios.remove_of "d1") Scenarios.world_d1_user_only).2)
  = [EvInvoke (Some "remove-user")
       (RemoveUserPayload "/tenantOps-dev/lab" "a@b.com")].
Proof. vm_compute. reflexivity. Qed.

(** ** The provisioning workflow: failures *)

(** Once [depID] is bound, [process_insert] is the [try] block guarded by
    the [except] clause. *)
Lemma process_insert_bound env record new_image depID w :
  process_insert_depID record = Ok (new_image, depID) →
  process_insert env record w =
    try_except (process_insert_steps env new_image depID)
      (process_insert_except env (Some depID)) w.
Proof. intros Hdep. unfold process_insert. by rewrite Hdep. Qed.

(** When the event yields no [depID], the [except] clause itself fails on
    the unbound local: nothing is written and the original error is
    replaced. *)
Lemma process_insert_without_depID env record e w :
  process_insert_depID record = Raise e →
  process_insert env record w = (Raise (UnboundLocalError "depID"), w).
Proof. intros Hdep. unfold process_insert. by rewrite Hdep. Qed.

(** C7, the claim as stated fails: while DynamoDB raises on every call,
    the first write of the workflow fails, the write of the [except] clause
    fails as well, the table holds nothing for "d1" and the caller sees
    the error of that second write. *)
Lemma store_failure_is_not_recorded :
  (process_insert
     (Scenarios.env_answering 200 (Some (ClientError "ServiceUnavailable")))
     Scenarios.insert_d1 Scenarios.empty_world).1
  = Raise (RuntimeError
             "Failed to update deployment state in DynamoDB: ServiceUnavailable")
  ∧ table (process_insert
             (Scenarios.env_answering 200
                (Some (ClientError "ServiceUnavailable")))
             Scenarios.insert_d1 Scenarios.empty_world).2 !! "d1" = None.
Proof. split; vm_compute; reflexivity. Qed.

(** C7, amended. Let [depID] have been read from the event and let the
    rest of the [try] block raise [e], leaving world [w1].  The [except]
    clause then runs once: it attempts one write of
    [deployment_status = FAILED] with [str(e)] as details.  When DynamoDB
    accepts that write, the record holds [deployment_status = FAILED] and,
    for a non-empty text, [details = str(e)], one line is printed, and [e]
    itself is raised to the caller.  When DynamoDB raises on that write,
    the table stays as [w1] had it and the error of the write is raised
    instead. *)
Theorem insert_failure_recorded env record new_image depID w e w1 :
  process_insert_depID record = Ok (new_image, depID) →
  process_insert_steps env new_image depID w = (Raise e, w1) →
  (dynamodb_fault env (trace w1) = None →
   ∃ w2 timestamp details,
     process_insert env record w = (Raise e, w2)
     ∧ trace w2 =
         [EvPrint ("Error processing INSERT record: " +:+ str_exn e);
          EvUpdateItem depID "deployment_status" "FAILED" timestamp details
            true] ++ trace w1
     ∧ field (table w2) depID "deployment_status" = Some (AttrS "FAILED")
     ∧ (str_exn e ≠ "" →
        field (table w2) depID "details" = Some (AttrS (str_exn e))))
  ∧ (∀ f, dynamodb_fault env (trace w1) = Some f →
     ∃ w2,
       process_insert env record w =
         (Raise (RuntimeError
                   ("Failed to update deployment state in DynamoDB: "
                    +:+ str_exn f)), w2)
       ∧ table w2 = table w1).
Proof.
  intros Hdep Hsteps.
  rewrite (process_insert_bound _ _ _ _ _ Hdep).
  unfold try_except. rewrite Hsteps.
  unfold process_insert_except, bind, print, emit, raise. split.
  - intros Hfault.
    rewrite update_deployment_state_accepted by accepted.
    eexists _, _, _. split; [reflexivity |]. cbn [trace table].
    split; [reflexivity |].
    split; [by apply field_update_item_step |].
    intros Hne. rewrite truthy_Some_nonempty by done.
    by apply field_update_item_details.
  - intros f Hfault.
    rewrite (update_deployment_state_fault _ _ _ _ _ _ f) by done.
    eexists. split; reflexivity.
Qed.

Lemma insert_failure_recorded_witness :
  ∃ w2,
    process_insert Scenarios.env_unconfigured Scenarios.insert_d1
      Scenarios.empty_world
    = (Raise (RuntimeError "Missing required environment variables."), w2)
    ∧ field (table w2) "d1" "deployment_status" = Some (AttrS "FAILED")
    ∧ field (table w2) "d1" "details"
      = Some (AttrS "Missing required environment variables.").
Proof.
  destruct (insert_failure_recorded Scenarios.env_unconfigured
              Scenarios.insert_d1 Scenarios.image_d1 "d1"
              Scenarios.empty_world
              (RuntimeError "Missing required environment variables.")
              (process_insert_steps Scenarios.env_unconfigured
                 Scenarios.image_d1 "d1" Scenarios.empty_world).2)
    as [Hrecorded _]; [vm_compute; reflexivity | vm_compute; reflexivity |].
  destruct Hrecorded as (w2 & timestamp & details & Hrun & _ & Hstatus
                         & Hdetails); [reflexivity |].
  exists w2. split; [exact Hrun |]. split; [exact Hstatus |].
  apply Hdetails. discriminate.
Defined.

(** ** The provisioning workflow: runs that reach the end *)

Section InsertRun.

Variable env : environment.
Variable record : stream_record.
Variable new_image : gmap string attr.
Variables depID labID email petname : string.
Variable lab : lab_info.
Variables namespace_response user_response : response.

Hypothesis Hdep : process_insert_depID record = Ok (new_image, depID).
Hypothesis HlabID : getitem_S new_image "labID" = Ok labID.
Hypothesis Hemail : getitem_S new_image "email" = Ok email.
Hypothesis Hpetname : getitem_S new_image "petname" = Ok petname.
Hypothesis Hns_arn : truthy (CREATE_NAMESPACE_LAMBDA env) = true.
Hypothesis Huser_arn : truthy (CREATE_USER_LAMBDA env) = true.
Hypothesis Hlab_table : truthy (LAB_CONFIGURATION_TABLE env) = true.
Hypothesis Hstore : ∀ tr, dynamodb_fault env tr = None.
Hypothesis Hlab : ∀ tr, get_lab_info env tr labID = Ok lab.
Hypothesis Huser_ns : user_ns lab = true.
Hypothesis Hnamespace : ∀ tr,
  lambda_client_invoke env tr (CREATE_NAMESPACE_LAMBDA env)
    (NamespacePayload (ssm_base_path lab) petname
       ("Namespace for " +:+ depID))
  = Ok namespace_response.
Hypothesis Huser : ∀ tr roles,
  lambda_client_invoke env tr (CREATE_USER_LAMBDA env)
    (UserPayload (ssm_base_path lab) (local_part email) "User" email
       (group_names lab) roles)
  = Ok user_response.

(** With a store that raises nothing, a lab that wants a namespace and two
    actions that answer, [process_insert] returns; the writes, the calls
    and the final record are these. *)
Lemma process_insert_completes w :
  let ns_ok := bool_decide (statusCode namespace_response = Some 200%Z) in
  let user_ok := bool_decide (statusCode user_response = Some 200%Z) in
  ∃ w',
    process_insert env record w = (Ok tt, w')
    ∧ (∃ new,
         trace w' = new ++ trace w
         ∧ omap written_pair (rev new) =
             [("deployment_status", "IN_PROGRESS");
              ("create_namespace", "IN_PROGRESS");
              ("create_namespace", if ns_ok then "SUCCESS" else "FAILED");
              ("create_user", "IN_PROGRESS");
              ("create_user", if user_ok then "SUCCESS" else "FAILED");
              ("created_namespace", str_bool ns_ok);
              ("created_user", str_bool user_ok)]
         ∧ List.filter is_invoke (rev new) =
             [EvInvoke (CREATE_NAMESPACE_LAMBDA env)
                (NamespacePayload (ssm_base_path lab) petname
                   ("Namespace for " +:+ depID));
              EvInvoke (CREATE_USER_LAMBDA env)
                (UserPayload (ssm_base_path lab) (local_part email) "User"
                   email (group_names lab)
                   (if ns_ok
                    then namespace_roles lab ++ [(petname, "ves-io-admin")]
                    else namespace_roles lab))])
    ∧ field (table w') depID "deployment_status"
      = Some (AttrS "IN_PROGRESS")
    ∧ field (table w') depID "create_namespace"
      = Some (AttrS (if ns_ok then "SUCCESS" else "FAILED"))
    ∧ field (table w') depID "create_user"
      = Some (AttrS (if user_ok then "SUCCESS" else "FAILED"))
    ∧ field (table w') depID "created_namespace"
      = Some (AttrS (str_bool ns_ok))
    ∧ field (table w') depID "created_user"
      = Some (AttrS (str_bool user_ok)).
Proof.
  intros ns_ok user_ok.
  rewrite (process_insert_bound _ _ _ _ _ Hdep).
  unfold try_except, process_insert_steps, bind, lift.
  rewrite HlabID, Hemail, Hpetname.
  write_ok.
  rewrite Hns_arn, Huser_arn, Hlab_table. cbn [negb orb trace].
  rewrite Hlab, Huser_ns.
  unfold create_namespace_step, create_user_step, bind, print, emit, ret.
  write_ok.
  rewrite (invoke_lambda_returns _ _ _ _ namespace_response)
    by apply Hnamespace; cbn [fst snd trace table].
  subst ns_ok user_ok.
  destruct (decide (statusCode namespace_response = Some 200%Z)) as [Hn|Hn];
    [rewrite (bool_decide_eq_true_2 _ Hn)
    |rewrite (bool_decide_eq_false_2 _ Hn)].
  all: write_ok.
  all: write_ok.
  all: rewrite (invoke_lambda_returns _ _ _ _ user_response) by apply Huser;
    cbn [fst snd trace table].
  all: destruct (decide (statusCode user_response = Some 200%Z)) as [Hu|Hu];
    [rewrite (bool_decide_eq_true_2 _ Hu)
    |rewrite (bool_decide_eq_false_2 _ Hu)].
  all: write_ok.
  all: write_ok.
  all: write_ok.
  all: eexists; split; [reflexivity |]; cbn [trace table].
  all: split;
    [ apply since_elim; repeat apply since_step; apply since_here;
      split; reflexivity |].
  all: repeat split.
  all: rewrite ?field_update_item_other by done.
  all: by apply field_update_item_step.
Qed.

(** When both actions answer 200 the run ends with both flags "True" and
    both steps SUCCESS, and [deployment_status] still reads IN_PROGRESS:
    no statement of [process_insert] writes another value on this path. *)
Corollary process_insert_success_stays_in_progress w :
  statusCode namespace_response = Some 200%Z →
  statusCode user_response = Some 200%Z →
  ∃ w',
    process_insert env record w = (Ok tt, w')
    ∧ field (table w') depID "created_namespace" = Some (AttrS "True")
    ∧ field (table w') depID "created_user" = Some (AttrS "True")
    ∧ field (table w') depID "create_namespace" = Some (AttrS "SUCCESS")
    ∧ field (table w') depID "create_user" = Some (AttrS "SUCCESS")
    ∧ field (table w') depID "deployment_status"
      = Some (AttrS "IN_PROGRESS").
Proof.
  intros Hn Hu.
  destruct (process_insert_completes w)
    as (w' & Hrun & _ & Hstatus & Hns & Huser' & Hflag_ns & Hflag_user).
  rewrite (bool_decide_eq_true_2 _ Hn) in Hns, Hflag_ns.
  rewrite (bool_decide_eq_true_2 _ Hu) in Huser', Hflag_user.
  by exists w'.
Qed.

End InsertRun.

(** C1, on scenario A: the record d1 of lab l1 is inserted, the lab wants a
    namespace, both actions answer 200.  [process_insert] returns, the
    record has [created_namespace] and [created_user] "True" and both steps
    SUCCESS, and its [deployment_status] is IN_PROGRESS, not a status of
    completion. *)
Theorem scenario_A_deployment_status :
  (process_insert (Scenarios.env_answering 200 None) Scenarios.insert_d1
     Scenarios.empty_world).1 = Ok tt
  ∧ field (table (process_insert (Scenarios.env_answering 200 None)
                    Scenarios.insert_d1 Scenarios.empty_world).2)
      "d1" "created_namespace" = Some (AttrS "True")
  ∧ field (table (process_insert (Scenarios.env_answering 200 None)
                    Scenarios.insert_d1 Scenarios.empty_world).2)
      "d1" "created_user" = Some (AttrS "True")
  ∧ field (table (process_insert (Scenarios.env_answering 200 None)
                    Scenarios.insert_d1 Scenarios.empty_world).2)
      "d1" "create_namespace" = Some (AttrS "SUCCESS")
  ∧ field (table (process_insert (Scenarios.env_answering 200 None)
                    Scenarios.insert_d1 Scenarios.empty_world).2)
      "d1" "create_user" = Some (AttrS "SUCCESS")
  ∧ field (table (process_insert (Scenarios.env_answering 200 None)
                    Scenarios.insert_d1 Scenarios.empty_world).2)
      "d1" "deployment_status" = Some (AttrS "IN_PROGRESS").
Proof. repeat split; vm_compute; reflexivity. Qed.

(** C6. Let the event carry its four fields, the configuration be present,
    the store raise nothing, the lab want a namespace, and both actions
    answer.  When the namespace action answers a status other than 200,
    [process_insert] still returns without raising: [create_namespace] is
    written FAILED, then the user action is invoked (with the lab's roles,
    no admin role added) and [create_user] is written SUCCESS or FAILED
    according to the user action's own status; the flags are written
    last, [created_namespace] as "False". *)
Theorem namespace_failure_is_not_fatal env record new_image
    depID labID email petname lab namespace_response user_response w :
  process_insert_depID record = Ok (new_image, depID) →
  getitem_S new_image "labID" = Ok labID →
  getitem_S new_image "email" = Ok email →
  getitem_S new_image "petname" = Ok petname →
  truthy (CREATE_NAMESPACE_LAMBDA env) = true →
  truthy (CREATE_USER_LAMBDA env) = true →
  truthy (LAB_CONFIGURATION_TABLE env) = true →
  (∀ tr, dynamodb_fault env tr = None) →
  (∀ tr, get_lab_info env tr labID = Ok lab) →
  user_ns lab = true →
  (∀ tr,
     lambda_client_invoke env tr (CREATE_NAMESPACE_LAMBDA env)
       (NamespacePayload (ssm_base_path lab) petname
          ("Namespace for " +:+ depID))
     = Ok namespace_response) →
  (∀ tr roles,
     lambda_client_invoke env tr (CREATE_USER_LAMBDA env)
       (UserPayload (ssm_base_path lab) (local_part email) "User" email
          (group_names lab) roles)
     = Ok user_response) →
  statusCode namespace_response ≠ Some 200%Z →
  ∃ w',
    process_insert env record w = (Ok tt, w')
    ∧ (∃ new,
         trace w' = new ++ trace w
         ∧ omap written_pair (rev new) =
             [("deployment_status", "IN_PROGRESS");
              ("create_namespace", "IN_PROGRESS");
              ("create_namespace", "FAILED");
              ("create_user", "IN_PROGRESS");
              ("create_user",
               if bool_decide (statusCode user_response = Some 200%Z)
               then "SUCCESS" else "FAILED");
              ("created_namespace", "False");
              ("created_user",
               str_bool
                 (bool_decide (statusCode user_response = Some 200%Z)))]
         ∧ List.filter is_invoke (rev new) =
             [EvInvoke (CREATE_NAMESPACE_LAMBDA env)
                (NamespacePayload (ssm_base_path lab) petname
                   ("Namespace for " +:+ depID));
              EvInvoke (CREATE_USER_LAMBDA env)
                (UserPayload (ssm_base_path lab) (local_part email) "User"
                   email (group_names lab) (namespace_roles lab))])
    ∧ field (table w') depID "create_namespace" = Some (AttrS "FAILED")
    ∧ field (table w') depID "create_user"
      = Some (AttrS (if bool_decide (statusCode user_response = Some 200%Z)
                     then "SUCCESS" else "FAILED"))
    ∧ field (table w') depID "created_namespace" = Some (AttrS "False")
    ∧ field (table w') depID "created_user"
      = Some (AttrS (str_bool
                       (bool_decide
                          (statusCode user_response = Some 200%Z)))).
Proof.
  intros Hdep HlabID Hemail Hpetname Hns_arn Huser_arn Hlab_table Hstore
    Hlab Huser_ns Hnamespace Huser Hfailed.
  destruct (process_insert_completes env record new_image depID labID email
              petname lab namespace_response user_response Hdep HlabID
              Hemail Hpetname Hns_arn Huser_arn Hlab_table Hstore Hlab
              Huser_ns Hnamespace Huser w)
    as (w' & Hrun & Hnew & _ & Hns & Huser' & Hflag_ns & Hflag_user).
  rewrite (bool_decide_eq_false_2 _ Hfailed) in Hnew, Hns, Hflag_ns.
  exists w'. done.
Qed.

Lemma namespace_failure_is_not_fatal_witness :
  ∃ w',
    process_insert Scenarios.env_namespace_conflict Scenarios.insert_d1
      Scenarios.empty_world = (Ok tt, w')
    ∧ field (table w') "d1" "create_namespace" = Some (AttrS "FAILED")
    ∧ field (table w') "d1" "create_user" = Some (AttrS "SUCCESS")
    ∧ field (table w') "d1" "created_namespace" = Some (AttrS "False")
    ∧ field (table w') "d1" "created_user" = Some (AttrS "True").
Proof.
  destruct (namespace_failure_is_not_fatal Scenarios.env_namespace_conflict
              Scenarios.insert_d1 Scenarios.image_d1 "d1" "l1" "a@b.com"
              "cow" Scenarios.lab_l1
              {| statusCode := Some 409%Z; body := Some "exists" |}
              {| statusCode := Some 200%Z; body := Some "done" |}
              Scenarios.empty_world)
    as (w' & Hrun & _ & Hns & Huser & Hflag_ns & Hflag_user);
    try (vm_compute; reflexivity); try (intros; reflexivity);
    [discriminate |].
  exists w'. split; [exact Hrun |]. split; [exact Hns |].
  split; [exact Huser |]. split; [exact Hflag_ns |]. exact Hflag_user.
Defined.

End WorkerFacts.

Module RetryFacts.
Import CailabPost.

Section Probe.

Variable request_fn : list event → result http_response.
Variable max_attempts : Z.
Variable delay_seconds : Q.
Variable success_statuses : option (gset Z).

Lemma pause_between_before_last attempt tr :
  (attempt < max_attempts)%Z →
  pause_between max_attempts delay_seconds attempt tr =
    (Ok tt,
     EvSleep delay_seconds :: EvLog (retry_message attempt max_attempts)
     :: tr).
Proof.
  intros Hlt. unfold pause_between. by rewrite bool_decide_eq_true_2.
Qed.

Lemma pause_between_last attempt tr :
  ¬ (attempt < max_attempts)%Z →
  pause_between max_attempts delay_seconds attempt tr = (Ok tt, tr).
Proof.
  intros Hlt. unfold pause_between. by rewrite bool_decide_eq_false_2.
Qed.

(** One iteration whose probe answers 401 or 403, outside the success
    set: the answer is kept as [last_error] and the loop goes on. *)
Lemma attempt_loop_auth_not_ready remaining attempt last_error tr r :
  request_fn tr = Ok r →
  status_code r ∉ allowed_successes success_statuses →
  status_code r = 401%Z ∨ status_code r = 403%Z →
  attempt_loop request_fn max_attempts delay_seconds success_statuses
    (S remaining) attempt last_error tr
  = attempt_loop request_fn max_attempts delay_seconds success_statuses
      remaining (attempt + 1)%Z
      (Some (RuntimeError ("Auth not ready (" +:+ pretty (status_code r)
                           +:+ "): " +:+ text r)))
      (pause_between max_attempts delay_seconds attempt (EvRequest :: tr)).2.
Proof.
  intros Hr Hnot Hauth. cbn [attempt_loop]. unfold call_request_fn.
  rewrite Hr. rewrite bool_decide_eq_false_2 by done.
  rewrite (bool_decide_eq_true_2 (status_code r ∈ ({[401%Z; 403%Z]} : gset Z)))
    by (rewrite elem_of_union, !elem_of_singleton; done).
  cbn [negb]. unfold bind.
  destruct (decide (attempt < max_attempts)%Z).
  - by rewrite pause_between_before_last.
  - by rewrite pause_between_last.
Qed.

(** One iteration whose probe answers a status that is neither a success
    nor 401 nor 403: the loop is left at once. *)
Lemma attempt_loop_other_status remaining attempt last_error tr r :
  request_fn tr = Ok r →
  status_code r ∉ allowed_successes success_statuses →
  status_code r ≠ 401%Z → status_code r ≠ 403%Z →
  attempt_loop request_fn max_attempts delay_seconds success_statuses
    (S remaining) attempt last_error tr
  = (Raise (RuntimeError ("Org post-creation request failed (" +:+
                          pretty (status_code r) +:+ "): " +:+ text r)),
     EvRequest :: tr).
Proof.
  intros Hr Hnot H401 H403. cbn [attempt_loop]. unfold call_request_fn.
  rewrite Hr. rewrite bool_decide_eq_false_2 by done.
  rewrite (bool_decide_eq_false_2 (status_code r ∈ ({[401%Z; 403%Z]} : gset Z)));
    [done |].
  rewrite elem_of_union, !elem_of_singleton. by intros [?|?].
Qed.

Lemma pause_between_extends attempt tr :
  ∃ pause,
    pause_between max_attempts delay_seconds attempt tr = (Ok tt, pause ++ tr).
Proof.
  destruct (decide (attempt < max_attempts)%Z).
  - rewrite pause_between_before_last by done.
    by exists [EvSleep delay_seconds;
               EvLog (retry_message attempt max_attempts)].
  - rewrite pause_between_last by done. by exists [].
Qed.

(** An iteration adds its call of the probe to the trace, and the loop
    only adds to what is there. *)
Lemma attempt_loop_extends remaining attempt last_error tr :
  ∃ new,
    (attempt_loop request_fn max_attempts delay_seconds success_statuses
       remaining attempt last_error tr).2
    = new ++ match remaining with O => tr | S _ => EvRequest :: tr end.
Proof.
  revert attempt last_error tr.
  induction remaining as [|remaining IH]; intros attempt last_error tr.
  { by exists []. }
  assert (∀ last_error',
            ∃ new,
              (bind (pause_between max_attempts delay_seconds attempt)
                 (λ _, attempt_loop request_fn max_attempts delay_seconds
                         success_statuses remaining (attempt + 1)%Z
                         last_error') (EvRequest :: tr)).2
              = new ++ EvRequest :: tr) as Hnext.
  { intros last_error'. unfold bind.
    destruct (pause_between_extends attempt (EvRequest :: tr))
      as [pause ->].
    destruct (IH (attempt + 1)%Z last_error' (pause ++ EvRequest :: tr))
      as [new ->].
    destruct remaining.
    - exists (new ++ pause). by rewrite <- app_assoc.
    - exists (new ++ EvRequest :: pause).
      by rewrite <- app_assoc. }
  cbn [attempt_loop]. unfold call_request_fn.
  destruct (request_fn tr) as [r|e].
  - destruct (bool_decide _); [by exists [] |].
    destruct (negb _); [by exists [] |]. apply Hnext.
  - destruct e; try by exists []. apply Hnext.
Qed.

(** While every answer is 401 or 403 outside the success set, the loop
    calls the probe once per remaining iteration, sleeps between two calls
    and never after the last, and ends with the exhaustion error. *)
Lemma attempt_loop_exhausts :
  (∀ tr, ∃ r, request_fn tr = Ok r
              ∧ (status_code r ∉ allowed_successes success_statuses)
              ∧ (status_code r = 401%Z ∨ status_code r = 403%Z)) →
  ∀ remaining attempt last_error tr,
    (attempt + Z.of_nat remaining = max_attempts + 1)%Z →
    ∃ new last,
      attempt_loop request_fn max_attempts delay_seconds success_statuses
        remaining attempt last_error tr
      = (Raise (RuntimeError ("Org post-creation request failed after " +:+
                              pretty max_attempts +:+ " attempts: " +:+
                              fmt_opt (str_exn <$> last))),
         new ++ tr)
      ∧ length (List.filter is_request new) = remaining
      ∧ length (List.filter is_sleep new) = pred remaining.
Proof.
  intros Hprobe.
  induction remaining as [|remaining IH]; intros attempt last_error tr Hsum.
  { by exists [], last_error. }
  destruct (Hprobe tr) as (r & Hr & Hnot & Hauth).
  rewrite (attempt_loop_auth_not_ready _ _ _ _ r) by done.
  destruct remaining as [|remaining].
  - rewrite pause_between_last by lia. cbn [snd attempt_loop].
    exists [EvRequest]. eexists. done.
  - rewrite pause_between_before_last by lia. cbn [snd].
    edestruct (IH (attempt + 1)%Z) as (new & last & -> & Hreq & Hsleep);
      [lia |].
    exists (new ++ [EvSleep delay_seconds;
                    EvLog (retry_message attempt max_attempts);
                    EvRequest]), last.
    split; [by rewrite <- app_assoc |].
    rewrite !List.filter_app, !length_app, Hreq, Hsleep. simpl. lia.
Qed.

End Probe.

Lemma not_default_success (status : Z) :
  status ≠ 200%Z → status ∉ allowed_successes None.
Proof. intros Hne. unfold allowed_successes. by rewrite elem_of_singleton. Qed.

(** C3. With [max_attempts = 5] and a success set that does not hold 403
    (the default [{200}] in particular), a probe that answers 403 on every
    call is called exactly five times; after each of the first four calls
    one line is logged and the wrapper sleeps once, after the fifth it
    does neither; the run then fails with the exhaustion error, which
    carries the text of the last answer. *)
Theorem retry_bound_on_403 request_fn delay_seconds success_statuses tr0 :
  403%Z ∉ allowed_successes success_statuses →
  (∀ tr, ∃ r, request_fn tr = Ok r ∧ status_code r = 403%Z) →
  ∃ new last,
    _run_with_auth_retry request_fn 5 delay_seconds success_statuses tr0
    = (Raise (RuntimeError
                ("Org post-creation request failed after 5 attempts: "
                 +:+ "Auth not ready (403): " +:+ text last)),
       new ++ tr0)
    ∧ rev new =
        [EvRequest; EvLog (retry_message 1 5); EvSleep delay_seconds;
         EvRequest; EvLog (retry_message 2 5); EvSleep delay_seconds;
         EvRequest; EvLog (retry_message 3 5); EvSleep delay_seconds;
         EvRequest; EvLog (retry_message 4 5); EvSleep delay_seconds;
         EvRequest]
    ∧ length (List.filter is_request new) = 5
    ∧ length (List.filter is_sleep new) = 4
    ∧ request_fn (tail new ++ tr0) = Ok last.
Proof.
  intros Hnot Hprobe. unfold _run_with_auth_retry.
  change (Z.to_nat 5) with 5%nat.
  destruct (Hprobe tr0) as (r1 & Hr1 & Hs1).
  rewrite (attempt_loop_auth_not_ready _ _ _ _ _ _ _ _ r1)
    by (rewrite ?Hs1; auto).
  rewrite pause_between_before_last by done. cbn [snd].
  match goal with |- context [attempt_loop _ _ _ _ _ _ _ ?tr] =>
    destruct (Hprobe tr) as (r2 & Hr2 & Hs2) end.
  rewrite (attempt_loop_auth_not_ready _ _ _ _ _ _ _ _ r2)
    by (rewrite ?Hs2; auto).
  rewrite pause_between_before_last by done. cbn [snd].
  match goal with |- context [attempt_loop _ _ _ _ _ _ _ ?tr] =>
    destruct (Hprobe tr) as (r3 & Hr3 & Hs3) end.
  rewrite (attempt_loop_auth_not_ready _ _ _ _ _ _ _ _ r3)
    by (rewrite ?Hs3; auto).
  rewrite pause_between_before_last by done. cbn [snd].
  match goal with |- context [attempt_loop _ _ _ _ _ _ _ ?tr] =>
    destruct (Hprobe tr) as (r4 & Hr4 & Hs4) end.
  rewrite (attempt_loop_auth_not_ready _ _ _ _ _ _ _ _ r4)
    by (rewrite ?Hs4; auto).
  rewrite pause_between_before_last by done. cbn [snd].
  match goal with |- context [attempt_loop _ _ _ _ _ _ _ ?tr] =>
    destruct (Hprobe tr) as (r5 & Hr5 & Hs5) end.
  rewrite (attempt_loop_auth_not_ready _ _ _ _ _ _ _ _ r5)
    by (rewrite ?Hs5; auto).
  rewrite pause_between_last by done. cbn [snd attempt_loop].
  rewrite Hs5. unfold raise.
  exists [EvRequest; EvSleep delay_seconds; EvLog (retry_message 4 5);
          EvRequest; EvSleep delay_seconds; EvLog (retry_message 3 5);
          EvRequest; EvSleep delay_seconds; EvLog (retry_message 2 5);
          EvRequest; EvSleep delay_seconds; EvLog (retry_message 1 5);
          EvRequest], r5.
  split; [reflexivity |]. split; [reflexivity |].
  split; [reflexivity |]. split; [reflexivity |]. exact Hr5.
Qed.

(** C4. Let the first answer of the probe have a status outside the
    success set.  When that status is neither 401 nor 403 (500, say), the
    run fails at once with the error for that answer: the probe has been
    called once and nothing was logged or slept.  When it is 401 or 403
    and a second attempt is allowed, the wrapper logs, sleeps and calls
    the probe again. *)
Theorem narrow_retryability request_fn max_attempts delay_seconds
    success_statuses tr0 r :
  request_fn tr0 = Ok r →
  status_code r ∉ allowed_successes success_statuses →
  (status_code r ≠ 401%Z → status_code r ≠ 403%Z → (1 ≤ max_attempts)%Z →
   _run_with_auth_retry request_fn max_attempts delay_seconds
     success_statuses tr0
   = (Raise (RuntimeError ("Org post-creation request failed (" +:+
                           pretty (status_code r) +:+ "): " +:+ text r)),
      [EvRequest] ++ tr0))
  ∧ (status_code r = 401%Z ∨ status_code r = 403%Z →
     (2 ≤ max_attempts)%Z →
     ∃ new,
       (_run_with_auth_retry request_fn max_attempts delay_seconds
          success_statuses tr0).2
       = new ++ [EvRequest; EvSleep delay_seconds;
                 EvLog (retry_message 1 max_attempts); EvRequest] ++ tr0).
Proof.
  intros Hr Hnot. unfold _run_with_auth_retry. split.
  - intros H401 H403 Hmax.
    destruct (Z.to_nat max_attempts) as [|remaining] eqn:Hn; [lia |].
    by apply attempt_loop_other_status.
  - intros Hauth Hmax.
    destruct (Z.to_nat max_attempts) as [|[|remaining]] eqn:Hn; [lia..|].
    rewrite (attempt_loop_auth_not_ready _ _ _ _ _ _ _ _ r) by done.
    rewrite pause_between_before_last by lia. cbn [snd].
    apply attempt_loop_extends.
Qed.

Lemma narrow_retryability_witness :
  _run_with_auth_retry (always 500 "boom") 5 1 None []
  = (Raise (RuntimeError "Org post-creation request failed (500): boom"),
     [EvRequest])
  ∧ ∃ new,
      (_run_with_auth_retry (always 401 "wait") 5 1 None []).2
      = new ++ [EvRequest; EvSleep 1; EvLog (retry_message 1 5); EvRequest].
Proof.
  split.
  - apply (narrow_retryability (always 500 "boom") 5 1 None []
             {| status_code := 500; text := "boom" |});
      [reflexivity | by apply not_default_success | discriminate
      | discriminate | lia].
  - apply (narrow_retryability (always 401 "wait") 5 1 None []
             {| status_code := 401; text := "wait" |});
      [reflexivity | by apply not_default_success | left; reflexivity | lia].
Defined.

Lemma retry_bound_on_403_witness :
  ∃ new last,
    _run_with_auth_retry (always 403 "not yet") 5 1 None []
    = (Raise (RuntimeError
                ("Org post-creation request failed after 5 attempts: "
                 +:+ "Auth not ready (403): " +:+ text last)),
       new ++ [])
    ∧ length (List.filter is_request new) = 5
    ∧ length (List.filter is_sleep new) = 4.
Proof.
  destruct (retry_bound_on_403 (always 403 "not yet") 1 None [])
    as (new & last & Hrun & _ & Hrequests & Hsleeps & _).
  - by apply not_default_success.
  - intros tr. eexists. split; reflexivity.
  - exists new, last. split; [exact Hrun |]. split; [exact Hrequests |].
    exact Hsleeps.
Defined.

End RetryFacts.

Module WorkerReach.
Import Worker WorkerShapes WorkerFacts.

(** ** Which part of the table a run may change *)

Lemma updated_from_other depID steps
    (t t' : gmap string (gmap string attr)) (other : string) :
  updated_from depID steps t t' → other ≠ depID → t' !! other = t !! other.
Proof.
  induction 1 as [|t' step status timestamp details _ IH _]; intros Hne.
  - done.
  - rewrite update_item_other by done. by apply IH.
Qed.

Lemma updated_from_field depID steps
    (t t' : gmap string (gmap string attr)) (name : string) :
  updated_from depID steps t t' →
  name ∉ steps → name ≠ "updated_at" → name ≠ "details" → name ≠ "depID" →
  field t' depID name = field t depID name.
Proof.
  induction 1 as [|t' step status timestamp details _ IH Hin];
    intros Hnot N1 N2 N3.
  - done.
  - rewrite field_update_item_other; [by apply IH | | done..].
    by intros ->.
Qed.

(** The key attribute of a stored item is never rewritten. *)
Lemma updated_from_key depID steps
    (t t' : gmap string (gmap string attr)) :
  updated_from depID steps t t' →
  "depID" ∉ steps → "updated_at" ∉ steps → "details" ∉ steps →
  (field t depID "depID" = Some (AttrS depID) ∨ t !! depID = None) →
  t' = t ∨ field t' depID "depID" = Some (AttrS depID).
Proof.
  intros Hup K1 K2 K3 Hkey.
  induction Hup as [|t' step status timestamp details Hup IH Hin].
  - by left.
  - right. unfold field, update_item. rewrite lookup_insert_eq. simpl.
    assert (step ≠ "depID") by (by intros ->).
    destruct details; rewrite !lookup_insert_ne by done.
    all: destruct IH as [-> | IH].
    all: try (destruct Hkey as [Hkey | Hkey];
              [ unfold field in Hkey; destruct (t !! depID); simpl in *;
                [done | discriminate]
              | rewrite Hkey; simpl; apply lookup_singleton_eq ]).
    all: unfold field in IH; destruct (t' !! depID); simpl in *;
      [done | discriminate].
Qed.

Ltac updated :=
  repeat (eapply updated_more;
          [| apply (bool_decide_unpack _); vm_compute; exact I]);
  apply updated_none.

Lemma process_insert_steps_updated env new_image depID w :
  updated_from depID insert_steps (table w)
    (table (try_except (process_insert_steps env new_image depID)
              (process_insert_except env (Some depID)) w).2).
Proof.
  unfold process_insert_except, try_except, process_insert_steps,
    create_namespace_step, create_user_step, print, emit, bind, lift, ret,
    raise.
  exec.
  all: updated.
Qed.

Lemma process_insert_updated env record new_image depID w :
  process_insert_depID record = Ok (new_image, depID) →
  updated_from depID insert_steps (table w)
    (table (process_insert env record w).2).
Proof.
  intros Hdep. rewrite (process_insert_bound _ _ _ _ _ Hdep).
  apply process_insert_steps_updated.
Qed.

Lemma process_remove_updated env record depID w :
  process_remove_depID record = Ok depID →
  updated_from depID remove_steps (table w)
    (table (process_remove env record w).2).
Proof.
  intros Hdep. unfold process_remove. rewrite Hdep.
  unfold process_remove_except, try_except, process_remove_steps, get_item,
    print, emit, bind, lift, ret, raise.
  cbv zeta. exec.
  all: updated.
Qed.

End WorkerReach.

Module WorkerExtra.
Import Worker WorkerShapes WorkerFacts WorkerReach.

(** ** Frame properties *)

(** X1. Whatever the event, the store and the actions do, a run of
    [process_insert] leaves every record of the table other than the one
    keyed by the event's [depID] as it was. *)
Theorem insert_touches_one_record env record w other :
  (∀ new_image depID,
     process_insert_depID record = Ok (new_image, depID) → other ≠ depID) →
  table (process_insert env record w).2 !! other = table w !! other.
Proof.
  intros Hother.
  destruct (process_insert_depID record) as [[new_image depID]|e] eqn:Hdep.
  - apply (updated_from_other depID insert_steps).
    + by apply (process_insert_updated _ _ new_image).
    + by apply (Hother new_image).
  - by rewrite (process_insert_without_depID _ _ e).
Qed.

Lemma insert_touches_one_record_witness :
  table (process_insert (Scenarios.env_answering 200 None)
           Scenarios.insert_d1 MoreScenarios.world_two_records).2 !! "d2"
  = table MoreScenarios.world_two_records !! "d2".
Proof.
  apply (insert_touches_one_record (Scenarios.env_answering 200 None)
           Scenarios.insert_d1 MoreScenarios.world_two_records "d2").
  intros new_image depID Hdep <-.
  apply (f_equal (λ r, match r with
                       | Ok p => String.eqb p.2 "d2"
                       | Raise _ => false
                       end)) in Hdep.
  vm_compute in Hdep. discriminate.
Defined.

(** X2. In the record it works on, [process_insert] writes only the
    attributes [deployment_status], [create_namespace], [create_user],
    [created_namespace], [created_user], [updated_at] and [details] (and
    the key of a record it creates): every other attribute, the
    [ssm_base_path], [email] and [petname] that the teardown reads among
    them, is after the run what it was before. *)
Theorem insert_writes_only_its_steps env record new_image depID w name :
  process_insert_depID record = Ok (new_image, depID) →
  name ∉ insert_steps →
  name ≠ "updated_at" → name ≠ "details" → name ≠ "depID" →
  field (table (process_insert env record w).2) depID name
  = field (table w) depID name.
Proof.
  intros Hdep Hname N1 N2 N3.
  apply (updated_from_field depID insert_steps); try done.
  by apply (process_insert_updated _ _ new_image).
Qed.

Lemma insert_writes_only_its_steps_witness :
  field (table (process_insert (Scenarios.env_answering 200 None)
                  Scenarios.insert_d1 Scenarios.empty_world).2)
    "d1" "ssm_base_path" = None.
Proof.
  rewrite (insert_writes_only_its_steps (Scenarios.env_answering 200 None)
             Scenarios.insert_d1 Scenarios.image_d1 "d1"
             Scenarios.empty_world "ssm_base_path");
    [reflexivity | vm_compute; reflexivity | | discriminate..].
  apply (bool_decide_eq_false_1 _). vm_compute. reflexivity.
Defined.

(** X3. Whatever the store and the actions do, a run of [process_remove]
    leaves every other record as it was and, in the record it works on,
    writes only [cleanup_status], [updated_at] and [details]: the flags
    [created_namespace] and [created_user] in particular are never
    changed by the teardown, whether a removal failed or not. *)
Theorem remove_writes_only_cleanup_status env record depID w :
  process_remove_depID record = Ok depID →
  (∀ other, other ≠ depID →
     table (process_remove env record w).2 !! other = table w !! other)
  ∧ field (table (process_remove env record w).2) depID "created_namespace"
    = field (table w) depID "created_namespace"
  ∧ field (table (process_remove env record w).2) depID "created_user"
    = field (table w) depID "created_user"
  ∧ (∀ name,
       name ≠ "cleanup_status" → name ≠ "updated_at" → name ≠ "details" →
       name ≠ "depID" →
       field (table (process_remove env record w).2) depID name
       = field (table w) depID name).
Proof.
  intros Hdep.
  pose proof (process_remove_updated env record depID w Hdep) as Hup.
  assert (∀ name,
            name ≠ "cleanup_status" → name ≠ "updated_at" →
            name ≠ "details" → name ≠ "depID" →
            field (table (process_remove env record w).2) depID name
            = field (table w) depID name) as Hfield.
  { intros name N0 N1 N2 N3.
    apply (updated_from_field depID remove_steps); try done.
    unfold remove_steps. by intros ->%list_elem_of_singleton. }
  split; [intros other Hother; by apply (updated_from_other depID remove_steps) |].
  split; [by apply Hfield |]. split; [by apply Hfield | done].
Qed.

Lemma remove_writes_only_cleanup_status_witness :
  field (table (process_remove (Scenarios.env_answering 200 None)
                  (Scenarios.remove_of "d1")
                  MoreScenarios.world_d1_complete).2) "d1" "created_user"
  = Some (AttrS "True").
Proof.
  destruct (remove_writes_only_cleanup_status
              (Scenarios.env_answering 200 None) (Scenarios.remove_of "d1")
              "d1" MoreScenarios.world_d1_complete)
    as (_ & _ & Huser & _); [reflexivity |].
  rewrite Huser. reflexivity.
Defined.

(** ** Which actions a run may invoke *)

(** X4. Whatever the event, the configuration, the store and the actions
    do, [process_insert] invokes nothing, or the namespace creation, or
    the user creation, or the namespace creation and then the user
    creation: no action twice, the user never before the namespace, and
    never a removal action. *)
Theorem insert_invokes_in_order env record w :
  ∃ new,
    trace (process_insert env record w).2 = new ++ trace w
    ∧ insert_invocations (invocations (rev new)) = true.
Proof.
  apply since_elim.
  unfold process_insert, process_insert_depID, process_insert_except,
    try_except, process_insert_steps, create_namespace_step,
    create_user_step, print, emit, bind, lift, ret, raise, getitem_S,
    getitem, attr_S.
  exec.
  all: repeat apply since_step; apply since_here.
  all: reflexivity.
Qed.

(** X5. Whatever the event, the stored record, the store and the actions
    do, [process_remove] invokes nothing, or one removal action, or the
    user removal and then the namespace removal: the user is removed
    before the namespace, and no creation action is ever invoked. *)
Theorem remove_invokes_in_order env record w :
  ∃ new,
    trace (process_remove env record w).2 = new ++ trace w
    ∧ remove_invocations (invocations (rev new)) = true.
Proof.
  apply since_elim.
  unfold process_remove, process_remove_depID, process_remove_except,
    try_except, process_remove_steps, get_item, print, emit, bind, lift,
    ret, raise, getitem_S, getitem, attr_S.
  cbv zeta. exec.
  all: repeat apply since_step; apply since_here.
  all: reflexivity.
Qed.

End WorkerExtra.

Module WorkerRuns.
Import Worker WorkerShapes WorkerFacts WorkerReach.

(** ** Runs of the provisioning workflow *)

(** X6. Let the event carry its four fields, the configuration be
    present, the store raise nothing and the user action answer.  When the
    lab's [user_ns] is false, [process_insert] returns without invoking the
    namespace action: its only invocation is the user creation with the
    lab's own roles, [created_namespace] is written "False", and the
    record's [create_namespace] attribute is not written at all. *)
Theorem insert_without_namespace env record new_image depID labID email
    petname lab user_response w :
  process_insert_depID record = Ok (new_image, depID) →
  getitem_S new_image "labID" = Ok labID →
  getitem_S new_image "email" = Ok email →
  getitem_S new_image "petname" = Ok petname →
  truthy (CREATE_NAMESPACE_LAMBDA env) = true →
  truthy (CREATE_USER_LAMBDA env) = true →
  truthy (LAB_CONFIGURATION_TABLE env) = true →
  (∀ tr, dynamodb_fault env tr = None) →
  (∀ tr, get_lab_info env tr labID = Ok lab) →
  user_ns lab = false →
  (∀ tr,
     lambda_client_invoke env tr (CREATE_USER_LAMBDA env)
       (UserPayload (ssm_base_path lab) (local_part email) "User" email
          (group_names lab) (namespace_roles lab))
     = Ok user_response) →
  ∃ w',
    process_insert env record w = (Ok tt, w')
    ∧ (∃ new,
         trace w' = new ++ trace w
         ∧ omap written_pair (rev new) =
             [("deployment_status", "IN_PROGRESS");
              ("create_user", "IN_PROGRESS");
              ("create_user",
               if bool_decide (statusCode user_response = Some 200%Z)
               then "SUCCESS" else "FAILED");
              ("created_namespace", "False");
              ("created_user",
               str_bool
                 (bool_decide (statusCode user_response = Some 200%Z)))]
         ∧ invocations (rev new) =
             [EvInvoke (CREATE_USER_LAMBDA env)
                (UserPayload (ssm_base_path lab) (local_part email) "User"
                   email (group_names lab) (namespace_roles lab))])
    ∧ field (table w') depID "created_namespace" = Some (AttrS "False")
    ∧ field (table w') depID "create_namespace"
      = field (table w) depID "create_namespace".
Proof.
  intros Hdep HlabID Hemail Hpetname Hns_arn Huser_arn Hlab_table Hstore
    Hlab Huser_ns Huser.
  rewrite (process_insert_bound _ _ _ _ _ Hdep).
  unfold try_except, process_insert_steps, bind, lift.
  rewrite HlabID, Hemail, Hpetname.
  write_ok.
  rewrite Hns_arn, Huser_arn, Hlab_table. cbn [negb orb trace].
  rewrite Hlab, Huser_ns.
  unfold create_user_step, bind, print, emit, ret. cbn [fst snd].
  write_ok.
  rewrite (invoke_lambda_returns _ _ _ _ user_response) by apply Huser;
    cbn [fst snd trace table].
  destruct (decide (statusCode user_response = Some 200%Z)) as [Hu|Hu];
    [rewrite (bool_decide_eq_true_2 _ Hu)
    |rewrite (bool_decide_eq_false_2 _ Hu)].
  all: write_ok.
  all: write_ok.
  all: write_ok.
  all: eexists; split; [reflexivity |]; cbn [trace table].
  all: split;
    [ apply since_elim; repeat apply since_step; apply since_here;
      split; reflexivity |].
  all: split.
  all: rewrite ?field_update_item_other by done.
  all: first [ by apply field_update_item_step | reflexivity ].
Qed.

Lemma insert_without_namespace_witness :
  ∃ w',
    process_insert (MoreScenarios.env_plain 200) Scenarios.insert_d1
      Scenarios.empty_world = (Ok tt, w')
    ∧ field (table w') "d1" "created_namespace" = Some (AttrS "False")
    ∧ field (table w') "d1" "create_namespace" = None.
Proof.
  destruct (insert_without_namespace (MoreScenarios.env_plain 200)
              Scenarios.insert_d1 Scenarios.image_d1 "d1" "l1" "a@b.com"
              "cow" MoreScenarios.lab_plain
              {| statusCode := Some 200%Z; body := Some "done" |}
              Scenarios.empty_world)
    as (w' & Hrun & _ & Hflag & Hstep);
    try (vm_compute; reflexivity); try (intros; reflexivity).
  exists w'. split; [exact Hrun |]. split; [exact Hflag |].
  rewrite Hstep. vm_compute. reflexivity.
Defined.

(** X7. Let the event carry its four fields and the store raise nothing.
    When one of [CREATE_NAMESPACE_LAMBDA_ARN], [CREATE_USER_LAMBDA_ARN]
    and [LAB_CONFIGURATION_TABLE] is unset or empty, [process_insert]
    raises "Missing required environment variables." after it has written
    [deployment_status] IN_PROGRESS: it invokes no action, and the record
    ends with [deployment_status] FAILED and that message as [details]. *)
Theorem insert_unconfigured env record new_image depID labID email petname
    w :
  process_insert_depID record = Ok (new_image, depID) →
  getitem_S new_image "labID" = Ok labID →
  getitem_S new_image "email" = Ok email →
  getitem_S new_image "petname" = Ok petname →
  truthy (CREATE_NAMESPACE_LAMBDA env) = false
  ∨ truthy (CREATE_USER_LAMBDA env) = false
  ∨ truthy (LAB_CONFIGURATION_TABLE env) = false →
  (∀ tr, dynamodb_fault env tr = None) →
  ∃ w',
    process_insert env record w
    = (Raise (RuntimeError "Missing required environment variables."), w')
    ∧ (∃ new,
         trace w' = new ++ trace w
         ∧ omap written_pair (rev new) =
             [("deployment_status", "IN_PROGRESS");
              ("deployment_status", "FAILED")]
         ∧ invocations (rev new) = [])
    ∧ field (table w') depID "deployment_status" = Some (AttrS "FAILED")
    ∧ field (table w') depID "details"
      = Some (AttrS "Missing required environment variables.").
Proof.
  intros Hdep HlabID Hemail Hpetname Hunset Hstore.
  rewrite (process_insert_bound _ _ _ _ _ Hdep).
  unfold try_except, process_insert_steps, bind, lift.
  rewrite HlabID, Hemail, Hpetname.
  write_ok.
  assert (negb (truthy (CREATE_NAMESPACE_LAMBDA env))
          || negb (truthy (CREATE_USER_LAMBDA env))
          || negb (truthy (LAB_CONFIGURATION_TABLE env)) = true) as ->.
  { destruct Hunset as [-> | [-> | ->]]; simpl;
      rewrite ?orb_true_r; reflexivity. }
  unfold raise, process_insert_except, bind, print, emit.
  write_ok.
  eexists. split; [reflexivity |]. cbn [trace table].
  split;
    [ apply since_elim; repeat apply since_step; apply since_here;
      split; reflexivity |].
  split; [by apply field_update_item_step |].
  by apply field_update_item_details.
Qed.

Lemma insert_unconfigured_witness :
  ∃ w',
    process_insert Scenarios.env_unconfigured Scenarios.insert_d1
      Scenarios.empty_world
    = (Raise (RuntimeError "Missing required environment variables."), w')
    ∧ (∃ new, trace w' = new ++ [] ∧ invocations (rev new) = []).
Proof.
  destruct (insert_unconfigured Scenarios.env_unconfigured
              Scenarios.insert_d1 Scenarios.image_d1 "d1" "l1" "a@b.com"
              "cow" Scenarios.empty_world)
    as (w' & Hrun & (new & Htrace & _ & Hcalls) & _);
    try (vm_compute; reflexivity); try (intros; reflexivity).
  { right. left. reflexivity. }
  exists w'. split; [exact Hrun |]. by exists new.
Defined.

End WorkerRuns.

Module TeardownRuns.
Import Worker WorkerShapes WorkerFacts WorkerReach.

(** ** Runs of the teardown workflow *)

Lemma flag_is_True_of_field (t : gmap string (gmap string attr)) depID name :
  field t depID name = Some (AttrS "True") →
  flag_is_True (default ∅ (t !! depID)) name = true.
Proof.
  unfold flag_is_True, field. intros H. apply bool_decide_eq_true.
  destruct (t !! depID) as [item|]; simpl in *; [|done].
  by rewrite H.
Qed.

Lemma getitem_S_of_field (t : gmap string (gmap string attr)) depID name s :
  field t depID name = Some (AttrS s) →
  getitem_S (default ∅ (t !! depID)) name = Ok s.
Proof.
  unfold getitem_S, getitem, field. intros H.
  destruct (t !! depID) as [item|]; simpl in *; [|done].
  by rewrite H.
Qed.

Lemma getitem_S_absent (t : gmap string (gmap string attr)) depID name :
  field t depID name = None →
  getitem_S (default ∅ (t !! depID)) name = Raise (KeyError name).
Proof.
  unfold getitem_S, getitem, field. intros H.
  destruct (t !! depID) as [item|]; simpl in *.
  - by rewrite H.
  - by rewrite lookup_empty.
Qed.

(** X8. Let the store raise nothing and let the stored record say
    [created_user] "True" but hold no [ssm_base_path] attribute.  Then
    [process_remove] raises [KeyError] for that attribute before it invokes
    anything: no removal action is called, and the record ends with
    [cleanup_status] FAILED and the key's [repr] as [details]. *)
Theorem teardown_without_stored_path env record depID w :
  process_remove_depID record = Ok depID →
  field (table w) depID "created_user" = Some (AttrS "True") →
  field (table w) depID "ssm_base_path" = None →
  (∀ tr, dynamodb_fault env tr = None) →
  ∃ w',
    process_remove env record w = (Raise (KeyError "ssm_base_path"), w')
    ∧ (∃ new, trace w' = new ++ trace w ∧ invocations (rev new) = [])
    ∧ field (table w') depID "cleanup_status" = Some (AttrS "FAILED")
    ∧ field (table w') depID "details" = Some (AttrS "'ssm_base_path'").
Proof.
  intros Hdep Huser Hpath Hstore.
  unfold process_remove. rewrite Hdep.
  unfold try_except, process_remove_steps, bind, get_item, lift.
  rewrite Hstore. cbv zeta.
  rewrite (flag_is_True_of_field _ _ _ Huser).
  write_ok.
  rewrite (getitem_S_absent _ _ _ Hpath).
  unfold process_remove_except, bind, print, emit, raise.
  write_ok.
  eexists. split; [reflexivity |]. cbn [trace table].
  split;
    [ apply since_elim; repeat apply since_step; apply since_here;
      reflexivity |].
  split; [by apply field_update_item_step |].
  by apply field_update_item_details.
Qed.

Lemma teardown_without_stored_path_witness :
  ∃ w',
    process_remove (Scenarios.env_answering 200 None)
      (Scenarios.remove_of "d1")
      (process_insert (Scenarios.env_answering 200 None)
         Scenarios.insert_d1 Scenarios.empty_world).2
    = (Raise (KeyError "ssm_base_path"), w')
    ∧ field (table w') "d1" "cleanup_status" = Some (AttrS "FAILED").
Proof.
  destruct (teardown_without_stored_path (Scenarios.env_answering 200 None)
              (Scenarios.remove_of "d1") "d1"
              (process_insert (Scenarios.env_answering 200 None)
                 Scenarios.insert_d1 Scenarios.empty_world).2)
    as (w' & Hrun & _ & Hstatus & _);
    try (vm_compute; reflexivity); try (intros; reflexivity).
  exists w'. split; [exact Hrun | exact Hstatus].
Defined.

(** X9. [process_insert] followed by [process_remove].  Let a run of
    [process_insert] for [depID] start from a table whose record for
    [depID] has no [ssm_base_path] attribute (a table without that record
    in particular) and end with [created_user] "True".  A REMOVE event for
    [depID] handled right after it, with a store that raises nothing,
    then fails with [KeyError] for [ssm_base_path] and invokes no removal
    action: the worker never stores what its own teardown reads. *)
Theorem insert_then_remove_fails env record new_image depID removal w :
  process_insert_depID record = Ok (new_image, depID) →
  process_remove_depID removal = Ok depID →
  field (table w) depID "ssm_base_path" = None →
  field (table (process_insert env record w).2) depID "created_user"
  = Some (AttrS "True") →
  (∀ tr, dynamodb_fault env tr = None) →
  ∃ w',
    process_remove env removal (process_insert env record w).2
    = (Raise (KeyError "ssm_base_path"), w')
    ∧ (∃ new,
         trace w' = new ++ trace (process_insert env record w).2
         ∧ invocations (rev new) = [])
    ∧ field (table w') depID "cleanup_status" = Some (AttrS "FAILED").
Proof.
  intros Hdep Hremoval Hpath Hflag Hstore.
  assert (field (table (process_insert env record w).2) depID
            "ssm_base_path" = None) as Hpath'.
  { rewrite <- Hpath.
    apply (updated_from_field depID insert_steps); try done.
    - by apply (process_insert_updated _ _ new_image).
    - apply (bool_decide_eq_false_1 _). vm_compute. reflexivity. }
  unfold process_remove. rewrite Hremoval.
  unfold try_except, process_remove_steps, bind, get_item, lift.
  rewrite Hstore. cbv zeta.
  rewrite (flag_is_True_of_field _ _ _ Hflag).
  write_ok.
  rewrite (getitem_S_absent _ _ _ Hpath').
  unfold process_remove_except, bind, print, emit, raise.
  write_ok.
  eexists. split; [reflexivity |]. cbn [trace table].
  split;
    [ apply since_elim; repeat apply since_step; apply since_here;
      reflexivity |].
  by apply field_update_item_step.
Qed.

Lemma insert_then_remove_fails_witness :
  ∃ w',
    process_remove (Scenarios.env_answering 200 None)
      (Scenarios.remove_of "d1")
      (process_insert (Scenarios.env_answering 200 None)
         Scenarios.insert_d1 Scenarios.empty_world).2
    = (Raise (KeyError "ssm_base_path"), w')
    ∧ (∃ new,
         trace w' = new ++ trace (process_insert
                                    (Scenarios.env_answering 200 None)
                                    Scenarios.insert_d1
                                    Scenarios.empty_world).2
         ∧ invocations (rev new) = []).
Proof.
  destruct (insert_then_remove_fails (Scenarios.env_answering 200 None)
              Scenarios.insert_d1 Scenarios.image_d1 "d1"
              (Scenarios.remove_of "d1") Scenarios.empty_world)
    as (w' & Hrun & Hcalls & _);
    try (vm_compute; reflexivity); try (intros; reflexivity).
  exists w'. split; [exact Hrun | exact Hcalls].
Defined.

(** X10. Let the store raise nothing, the stored record have both flags
    "True" and hold [ssm_base_path], [email] and [petname], and both
    removal actions answer.  Whatever they answer, a failure status
    included, [process_remove] invokes the user removal, then the
    namespace removal, and ends with [cleanup_status] COMPLETED. *)
Theorem teardown_ignores_answers env record depID ssm email petname w :
  process_remove_depID record = Ok depID →
  field (table w) depID "created_user" = Some (AttrS "True") →
  field (table w) depID "created_namespace" = Some (AttrS "True") →
  field (table w) depID "ssm_base_path" = Some (AttrS ssm) →
  field (table w) depID "email" = Some (AttrS email) →
  field (table w) depID "petname" = Some (AttrS petname) →
  (∀ tr, dynamodb_fault env tr = None) →
  (∀ tr function_name p,
     ∃ r, lambda_client_invoke env tr function_name p = Ok r) →
  ∃ w',
    process_remove env record w = (Ok tt, w')
    ∧ (∃ new,
         trace w' = new ++ trace w
         ∧ invocations (rev new) =
             [EvInvoke (REMOVE_USER_LAMBDA env)
                (RemoveUserPayload ssm email);
              EvInvoke (REMOVE_NAMESPACE_LAMBDA env)
                (RemoveNamespacePayload ssm petname)])
    ∧ field (table w') depID "cleanup_status" = Some (AttrS "COMPLETED").
Proof.
  intros Hdep Huser Hns Hpath Hemail Hpetname Hstore Hanswer.
  unfold process_remove. rewrite Hdep.
  unfold try_except, process_remove_steps, bind, get_item, lift, ret.
  rewrite Hstore. cbv zeta.
  rewrite (flag_is_True_of_field _ _ _ Huser).
  rewrite (flag_is_True_of_field _ _ _ Hns).
  write_ok.
  rewrite (getitem_S_of_field _ _ _ _ Hpath).
  rewrite (getitem_S_of_field _ _ _ _ Hemail).
  rewrite (getitem_S_of_field _ _ _ _ Hpetname).
  match goal with
  | |- context [invoke_lambda env ?f ?p ?w0] =>
      destruct (Hanswer (trace w0) f p) as [r1 Hr1];
      rewrite (invoke_lambda_returns _ _ _ _ r1) by exact Hr1
  end.
  cbn [fst snd trace table]. write_ok.
  match goal with
  | |- context [invoke_lambda env ?f ?p ?w0] =>
      destruct (Hanswer (trace w0) f p) as [r2 Hr2];
      rewrite (invoke_lambda_returns _ _ _ _ r2) by exact Hr2
  end.
  cbn [fst snd trace table]. write_ok.
  eexists. split; [reflexivity |]. cbn [trace table].
  split;
    [ apply since_elim; repeat apply since_step; apply since_here;
      reflexivity |].
  by apply field_update_item_step.
Qed.

Lemma teardown_ignores_answers_witness :
  ∃ w',
    process_remove (Scenarios.env_answering 500 None)
      (Scenarios.remove_of "d1") MoreScenarios.world_d1_complete
    = (Ok tt, w')
    ∧ field (table w') "d1" "cleanup_status" = Some (AttrS "COMPLETED").
Proof.
  destruct (teardown_ignores_answers (Scenarios.env_answering 500 None)
              (Scenarios.remove_of "d1") "d1" "/tenantOps-dev/lab"
              "a@b.com" "cow" MoreScenarios.world_d1_complete)
    as (w' & Hrun & _ & Hstatus);
    try (vm_compute; reflexivity); try (intros; reflexivity).
  { intros tr function_name p. eexists. reflexivity. }
  exists w'. split; [exact Hrun | exact Hstatus].
Defined.

End TeardownRuns.

Module EntryExtra.
Import Worker WorkerShapes WorkerFacts.

(** ** Events the workflows cannot read *)

(** X11. An INSERT event without [NewImage], or whose [NewImage] has no
    string attribute [depID], makes [process_insert] raise
    [UnboundLocalError] for [depID]: the [except] clause reads the local
    before it was bound, so the [KeyError] of the event is replaced, and
    nothing is written, invoked or printed. *)
Theorem insert_without_depID_masks_error env record w :
  NewImage record = None
  ∨ (∃ new_image,
       NewImage record = Some new_image
       ∧ ∀ s, new_image !! "depID" ≠ Some (AttrS s)) →
  process_insert env record w = (Raise (UnboundLocalError "depID"), w).
Proof.
  intros Hshape.
  assert (∃ e, process_insert_depID record = Raise e) as [e He].
  { unfold process_insert_depID, getitem_S, getitem.
    destruct Hshape as [-> | (new_image & -> & Hno)]; [by eexists |].
    destruct (new_image !! "depID") as [[s|n]|] eqn:Hlook; simpl.
    - by destruct (Hno s).
    - by eexists.
    - by eexists. }
  by apply (process_insert_without_depID _ _ e).
Qed.

Lemma insert_without_depID_masks_error_witness :
  process_insert (Scenarios.env_answering 200 None)
    MoreScenarios.insert_keys_only Scenarios.empty_world
  = (Raise (UnboundLocalError "depID"), Scenarios.empty_world).
Proof.
  apply (insert_without_depID_masks_error (Scenarios.env_answering 200 None)
           MoreScenarios.insert_keys_only Scenarios.empty_world).
  left. reflexivity.
Defined.

(** X12. A REMOVE event without [Keys], or whose [Keys] have no string
    attribute [depID], makes [process_remove] raise [UnboundLocalError]
    for [depID] in the same way: the table is not read, nothing is
    written, invoked or printed. *)
Theorem remove_without_depID_masks_error env record w :
  Keys record = None
  ∨ (∃ keys,
       Keys record = Some keys ∧ ∀ s, keys !! "depID" ≠ Some (AttrS s)) →
  process_remove env record w = (Raise (UnboundLocalError "depID"), w).
Proof.
  intros Hshape.
  assert (∃ e, process_remove_depID record = Raise e) as [e He].
  { unfold process_remove_depID, getitem_S, getitem.
    destruct Hshape as [-> | (keys & -> & Hno)]; [by eexists |].
    destruct (keys !! "depID") as [[s|n]|] eqn:Hlook; simpl.
    - by destruct (Hno s).
    - by eexists.
    - by eexists. }
  unfold process_remove. by rewrite He.
Qed.

Lemma remove_without_depID_masks_error_witness :
  process_remove (Scenarios.env_answering 200 None)
    MoreScenarios.remove_numeric_key MoreScenarios.world_d1_complete
  = (Raise (UnboundLocalError "depID"), MoreScenarios.world_d1_complete).
Proof.
  apply (remove_without_depID_masks_error (Scenarios.env_answering 200 None)
           MoreScenarios.remove_numeric_key MoreScenarios.world_d1_complete).
  right. exists {[ "depID" := AttrN "1" ]}. split; [reflexivity |].
  intros s. vm_compute. discriminate.
Defined.

(** ** Batches *)

(** [lambda_handler] on two batches in a row. *)
Lemma lambda_handler_app env before after w :
  lambda_handler env (before ++ after) w
  = match lambda_handler env before w with
    | (Ok _, w1) => lambda_handler env after w1
    | (Raise e, w1) => (Raise e, w1)
    end.
Proof.
  revert w. induction before as [|record before IH]; intros w; [done |].
  simpl. unfold bind.
  destruct (handle_record env record w) as [[[]|e] w1]; [apply IH | done].
Qed.

(** X13. The first record whose handling raises ends the batch: when the
    records before it have been handled without error and handling it
    raises [e], [lambda_handler] raises [e] and the world is the one that
    record left; the records after it are not handled. *)
Theorem batch_stops_at_first_error env before record after w w1 e w2 :
  lambda_handler env before w = (Ok tt, w1) →
  handle_record env record w1 = (Raise e, w2) →
  lambda_handler env (before ++ record :: after) w = (Raise e, w2).
Proof.
  intros Hbefore Hrecord.
  rewrite lambda_handler_app, Hbefore. simpl. unfold bind.
  by rewrite Hrecord.
Qed.

Lemma batch_stops_at_first_error_witness :
  lambda_handler (Scenarios.env_answering 200 None)
    ([Scenarios.modify_d1]
       ++ MoreScenarios.insert_keys_only :: [Scenarios.insert_d1])
    Scenarios.empty_world
  = (Raise (UnboundLocalError "depID"), Scenarios.empty_world).
Proof.
  apply (batch_stops_at_first_error (Scenarios.env_answering 200 None)
           [Scenarios.modify_d1] MoreScenarios.insert_keys_only
           [Scenarios.insert_d1] Scenarios.empty_world
           Scenarios.empty_world);
    vm_compute; reflexivity.
Defined.

(** ** Repeating a write *)

Lemma update_item_again depID step status ts1 ts2 details
    (t : gmap string (gmap string attr)) (name : string) :
  step ≠ "updated_at" → step ≠ "details" → name ≠ "updated_at" →
  field (update_item depID step status ts2 details
           (update_item depID step status ts1 details t)) depID name
  = field (update_item depID step status ts1 details t) depID name.
Proof.
  intros H2 H3 Hname.
  destruct (update_item_lookup depID step status ts1 details t H2 H3)
    as (item1 & Hitem1 & Hstep1 & _ & Hdetails1 & _).
  destruct (update_item_lookup depID step status ts2 details
              (update_item depID step status ts1 details t) H2 H3)
    as (item2 & Hitem2 & Hstep2 & _ & Hdetails2 & Hrest2).
  unfold field. rewrite Hitem2, Hitem1. simpl.
  rewrite Hitem1 in Hdetails2, Hrest2. simpl in Hdetails2, Hrest2.
  destruct (decide (name = step)) as [->|Hstep]; [congruence |].
  destruct (decide (name = "details")) as [->|Hdet].
  - rewrite Hdetails2, Hdetails1. by destruct details.
  - by apply Hrest2.
Qed.

Lemma update_item_same depID step status timestamp details
    (t : gmap string (gmap string attr)) :
  step ≠ "updated_at" → step ≠ "details" →
  update_item depID step status timestamp details
    (update_item depID step status timestamp details t)
  = update_item depID step status timestamp details t.
Proof.
  intros H2 H3. apply map_eq. intros key.
  destruct (decide (key = depID)) as [->|Hkey];
    [| by rewrite update_item_other].
  destruct (update_item_lookup depID step status timestamp details t H2 H3)
    as (item1 & Hitem1 & _ & Htime1 & _).
  destruct (update_item_lookup depID step status timestamp details
              (update_item depID step status timestamp details t) H2 H3)
    as (item2 & Hitem2 & _ & Htime2 & _).
  rewrite Hitem2, Hitem1. f_equal. apply map_eq. intros name.
  destruct (decide (name = "updated_at")) as [->|Hname]; [congruence |].
  pose proof (update_item_again depID step status timestamp timestamp
                details t name H2 H3 Hname) as Hsame.
  unfold field in Hsame. by rewrite Hitem2, Hitem1 in Hsame.
Qed.

(** X14. Calling [update_deployment_state] a second time with the same
    arguments, both calls accepted, changes nothing in the table but the
    record's [updated_at]: every other attribute of the record and every
    other record are after the second call what they were after the
    first, and when the clock has not moved the table is the same. *)
Theorem update_twice_changes_only_updated_at env depID step status details
    w :
  dynamodb_fault env (trace w) = None →
  dynamodb_fault env
    (trace (update_deployment_state env depID step status details w).2)
  = None →
  step ≠ "depID" → step ≠ "updated_at" → step ≠ "details" →
  ∃ w1 w2,
    update_deployment_state env depID step status details w = (Ok tt, w1)
    ∧ update_deployment_state env depID step status details w1 = (Ok tt, w2)
    ∧ (∀ other, other ≠ depID → table w2 !! other = table w1 !! other)
    ∧ (∀ name, name ≠ "updated_at" →
         field (table w2) depID name = field (table w1) depID name)
    ∧ (time_time env (trace w1) = time_time env (trace w) →
       table w2 = table w1).
Proof.
  intros Hfault1 Hfault2 H1 H2 H3.
  rewrite update_deployment_state_accepted in Hfault2 |- *
    by auto using update_paths_ok_fresh.
  cbn [snd trace] in Hfault2.
  eexists _, _. split; [reflexivity |].
  rewrite update_deployment_state_accepted
    by (cbn [trace]; auto using update_paths_ok_fresh).
  split; [reflexivity |]. cbn [trace table].
  split; [intros other Hother; by rewrite update_item_other |].
  split; [intros name Hname; by apply update_item_again |].
  intros ->. by apply update_item_same.
Qed.

Lemma update_twice_changes_only_updated_at_witness :
  ∃ w1 w2,
    update_deployment_state (Scenarios.env_answering 200 None)
      "d1" "create_user" "SUCCESS" (Some "created") Scenarios.empty_world
    = (Ok tt, w1)
    ∧ update_deployment_state (Scenarios.env_answering 200 None)
        "d1" "create_user" "SUCCESS" (Some "created") w1 = (Ok tt, w2)
    ∧ field (table w2) "d1" "create_user"
      = field (table w1) "d1" "create_user".
Proof.
  destruct (update_twice_changes_only_updated_at
              (Scenarios.env_answering 200 None)
              "d1" "create_user" "SUCCESS" (Some "created")
              Scenarios.empty_world)
    as (w1 & w2 & Hfirst & Hsecond & _ & Hfield & _);
    [reflexivity | reflexivity | discriminate | discriminate | discriminate |].
  exists w1, w2. split; [exact Hfirst |]. split; [exact Hsecond |].
  apply Hfield. discriminate.
Defined.

End EntryExtra.

Module RetryExtra.
Import CailabPost RetryShapes RetryFacts.

Section AnyProbe.

Variable request_fn : list event → result http_response.
Variable max_attempts : Z.
Variable delay_seconds : Q.
Variable success_statuses : option (gset Z).

Local Abbreviation loop :=
  (attempt_loop request_fn max_attempts delay_seconds success_statuses).

(** One iteration whose probe raises [RequestException]: the exception is
    kept as [last_error] and the loop goes on. *)
Lemma attempt_loop_transport_error remaining attempt last_error tr msg :
  request_fn tr = Raise (RequestException msg) →
  loop (S remaining) attempt last_error tr
  = loop remaining (attempt + 1)%Z (Some (RequestException msg))
      (pause_between max_attempts delay_seconds attempt (EvRequest :: tr)).2.
Proof.
  intros Hr. cbn [attempt_loop]. unfold call_request_fn. rewrite Hr.
  unfold bind.
  destruct (decide (attempt < max_attempts)%Z).
  - by rewrite pause_between_before_last.
  - by rewrite pause_between_last.
Qed.




End AnyProbe.

Lemma default_success : 200%Z ∈ allowed_successes None.
Proof. unfold allowed_successes. by apply elem_of_singleton. Qed.




(** X17. An answer whose status is in the success set ends the run at
    once, without log or sleep, whether or not that status is 401 or 403.
    When the first answer is 401 or 403 outside the success set and the
    second is a success, the run returns after two calls, one log line
    and one sleep. *)
Theorem success_ends_the_run request_fn max_attempts delay_seconds
    success_statuses tr0 r :
  request_fn tr0 = Ok r →
  (status_code r ∈ allowed_successes success_statuses →
   (1 ≤ max_attempts)%Z →
   _run_with_auth_retry request_fn max_attempts delay_seconds
     success_statuses tr0 = (Ok tt, [EvRequest] ++ tr0))
  ∧ (status_code r ∉ allowed_successes success_statuses →
     status_code r = 401%Z ∨ status_code r = 403%Z →
     (2 ≤ max_attempts)%Z →
     ∀ r2,
       request_fn ([EvSleep delay_seconds;
                    EvLog (retry_message 1 max_attempts); EvRequest] ++ tr0)
       = Ok r2 →
       status_code r2 ∈ allowed_successes success_statuses →
       _run_with_auth_retry request_fn max_attempts delay_seconds
         success_statuses tr0
       = (Ok tt,
          [EvRequest; EvSleep delay_seconds;
           EvLog (retry_message 1 max_attempts); EvRequest] ++ tr0)).
Proof.
  intros Hr. unfold _run_with_auth_retry. split.
  - intros Hin Hmax.
    destruct (Z.to_nat max_attempts) as [|remaining] eqn:Hn; [lia |].
    cbn [attempt_loop]. unfold call_request_fn. rewrite Hr.
    by rewrite bool_decide_eq_true_2.
  - intros Hnot Hauth Hmax r2 Hr2 Hin2.
    destruct (Z.to_nat max_attempts) as [|[|remaining]] eqn:Hn; [lia..|].
    rewrite (attempt_loop_auth_not_ready _ _ _ _ _ _ _ _ r) by done.
    rewrite pause_between_before_last by lia. cbn [snd attempt_loop].
    unfold call_request_fn. simpl in Hr2. rewrite Hr2.
    by rewrite bool_decide_eq_true_2.
Qed.

Lemma success_ends_the_run_witness :
  _run_with_auth_retry (always 200 "{}") 5 1 None []
  = (Ok tt, [EvRequest])
  ∧ _run_with_auth_retry
      (switching 1 {| status_code := 403; text := "not yet" |}
         {| status_code := 200; text := "{}" |}) 5 1 None []
    = (Ok tt, [EvRequest; EvSleep 1; EvLog (retry_message 1 5); EvRequest]).
Proof.
  split.
  - apply (success_ends_the_run (always 200 "{}") 5 1 None []
             {| status_code := 200; text := "{}" |});
      [reflexivity | apply default_success | lia].
  - eapply (proj2 (success_ends_the_run
                      (switching 1 {| status_code := 403; text := "not yet" |}
                         {| status_code := 200; text := "{}" |}) 5 1 None []
                      {| status_code := 403; text := "not yet" |}
                      eq_refl));
      [by apply not_default_success | by right | lia | reflexivity
      | apply default_success].
Defined.

(** X18. When the first call of the probe raises: a
    [requests.RequestException] is retried like a 401 (log, sleep, second
    call) when a second attempt is allowed; any other exception leaves
    the wrapper at once, unchanged, after that single call. *)
Theorem exceptions_of_the_probe request_fn max_attempts delay_seconds
    success_statuses tr0 e :
  request_fn tr0 = Raise e →
  (∀ msg, e = RequestException msg → (2 ≤ max_attempts)%Z →
     ∃ new,
       (_run_with_auth_retry request_fn max_attempts delay_seconds
          success_statuses tr0).2
       = new ++ [EvRequest; EvSleep delay_seconds;
                 EvLog (retry_message 1 max_attempts); EvRequest] ++ tr0)
  ∧ ((∀ msg, e ≠ RequestException msg) → (1 ≤ max_attempts)%Z →
     _run_with_auth_retry request_fn max_attempts delay_seconds
       success_statuses tr0 = (Raise e, [EvRequest] ++ tr0)).
Proof.
  intros Hr. unfold _run_with_auth_retry. split.
  - intros msg -> Hmax.
    destruct (Z.to_nat max_attempts) as [|[|remaining]] eqn:Hn; [lia..|].
    rewrite (attempt_loop_transport_error _ _ _ _ _ _ _ _ msg) by done.
    rewrite pause_between_before_last by lia. cbn [snd].
    apply attempt_loop_extends.
  - intros Hother Hmax.
    destruct (Z.to_nat max_attempts) as [|remaining] eqn:Hn; [lia |].
    cbn [attempt_loop]. unfold call_request_fn. rewrite Hr.
    destruct e; try done. by destruct (Hother msg).
Qed.

Lemma exceptions_of_the_probe_witness :
  _run_with_auth_retry (broken "token") 5 1 None []
  = (Raise (KeyError "token"), [EvRequest])
  ∧ ∃ new,
      (_run_with_auth_retry (unreachable "timed out") 5 1 None []).2
      = new ++ [EvRequest; EvSleep 1; EvLog (retry_message 1 5); EvRequest].
Proof.
  split.
  - apply (proj2 (exceptions_of_the_probe (broken "token") 5 1 None []
                      (KeyError "token") eq_refl)); [discriminate | lia].
  - apply (proj1 (exceptions_of_the_probe (unreachable "timed out") 5 1
                      None [] (RequestException "timed out") eq_refl)
             "timed out"); [reflexivity | lia].
Defined.

(** X19. With [max_attempts] zero or negative the probe is never called:
    the run fails at once with the exhaustion error, whose last error
    reads "None". *)
Theorem no_attempt_allowed request_fn max_attempts delay_seconds
    success_statuses tr0 :
  (max_attempts ≤ 0)%Z →
  _run_with_auth_retry request_fn max_attempts delay_seconds
    success_statuses tr0
  = (Raise (RuntimeError ("Org post-creation request failed after " +:+
                          pretty max_attempts +:+ " attempts: None")),
     tr0).
Proof.
  intros Hmax. unfold _run_with_auth_retry.
  by replace (Z.to_nat max_attempts) with 0 by lia.
Qed.

Lemma no_attempt_allowed_witness :
  _run_with_auth_retry (always 200 "{}") 0 1 None []
  = (Raise (RuntimeError
              "Org post-creation request failed after 0 attempts: None"),
     []).
Proof.
  rewrite (no_attempt_allowed (always 200 "{}") 0 1 None []) by lia.
  vm_compute. reflexivity.
Defined.

Lemma attempt_loop_same_successes request_fn max_attempts delay_seconds
    ss1 ss2 remaining attempt last_error tr :
  allowed_successes ss1 = allowed_successes ss2 →
  attempt_loop request_fn max_attempts delay_seconds ss1 remaining attempt
    last_error tr
  = attempt_loop request_fn max_attempts delay_seconds ss2 remaining attempt
      last_error tr.
Proof.
  intros Hsame. revert attempt last_error tr.
  induction remaining as [|remaining IH]; intros attempt last_error tr;
    [done |].
  cbn [attempt_loop]. rewrite Hsame. unfold bind.
  destruct (call_request_fn request_fn tr) as [[r|e] tr1].
  - destruct (bool_decide _); [done |]. destruct (negb _); [done |].
    destruct (pause_between _ _ _ _) as [[[]|e] tr2]; [apply IH | done].
  - destruct e; try done.
    destruct (pause_between _ _ _ _) as [[[]|e] tr2]; [apply IH | done].
Qed.

(** X20. An empty [success_statuses] is not "no status is a success": the
    wrapper falls back to [{200}], so a run with the empty set is the run
    with [None]. *)
Theorem empty_success_set_is_default request_fn max_attempts delay_seconds
    tr0 :
  _run_with_auth_retry request_fn max_attempts delay_seconds (Some ∅) tr0
  = _run_with_auth_retry request_fn max_attempts delay_seconds None tr0.
Proof.
  unfold _run_with_auth_retry. apply attempt_loop_same_successes.
  unfold allowed_successes. by rewrite decide_True.
Qed.

End RetryExtra.

Module HelperFacts.
Import CailabHelpers.

(** ** Substrings *)

Lemma append_cons (c : ascii) (a b : string) :
  String c a +:+ b = String c (a +:+ b).
Proof. reflexivity. Qed.

Lemma prefix_app (needle rest : string) :
  String.prefix needle (needle +:+ rest) = true.
Proof.
  induction needle as [|c needle IH]; simpl; [by destruct rest |].
  by destruct (ascii_dec c c).
Qed.

Lemma contains_prefix (needle s : string) :
  String.prefix needle s = true → contains needle s = true.
Proof. intros H. destruct s; cbn [contains]; by rewrite H. Qed.

Lemma contains_app (needle before s : string) :
  contains needle s = true → contains needle (before +:+ s) = true.
Proof.
  intros H. induction before as [|c before IH]; simpl; [done |].
  rewrite IH. apply orb_true_r.
Qed.

Lemma contains_char (c : ascii) (s : string) :
  contains (String c EmptyString) s = has_char c s.
Proof.
  induction s as [|c' s IH]; simpl; [done |].
  rewrite IH. f_equal.
  destruct (ascii_dec c c') as [->|Hne].
  - rewrite Ascii.eqb_refl. by destruct s.
  - symmetry. apply Ascii.eqb_neq. congruence.
Qed.

Lemma has_char_app (c : ascii) (a b : string) :
  has_char c (a +:+ b) = has_char c a || has_char c b.
Proof.
  induction a as [|c' a IH]; simpl; [done |].
  by rewrite IH, orb_assoc.
Qed.

Lemma split_once_joins (sep : ascii) (s : string) :
  has_char sep s = true →
  s = (split_once sep s).1 +:+ String sep (split_once sep s).2
  ∧ has_char sep (split_once sep s).1 = false.
Proof.
  induction s as [|c s IH]; simpl; [done |].
  destruct (Ascii.eqb_spec c sep) as [->|Hne]; simpl.
  - done.
  - intros Hin. destruct (IH Hin) as [Hjoin Hnot]. split.
    + rewrite Hjoin at 1. reflexivity.
    + rewrite Hnot. by apply Ascii.eqb_neq in Hne as ->.
Qed.

Lemma split_once_app (sep : ascii) (a b : string) :
  has_char sep a = false →
  split_once sep (a +:+ String sep b) = (a, b).
Proof.
  induction a as [|c a IH]; simpl.
  - intros _. by rewrite Ascii.eqb_refl.
  - intros [Hc Ha]%orb_false_elim. rewrite Hc, (IH Ha). done.
Qed.

Lemma append_assoc (a b c : string) : (a +:+ b) +:+ c = a +:+ (b +:+ c).
Proof.
  induction a as [|x a IH]; [done |].
  rewrite !append_cons. by f_equal.
Qed.

(** ** [add_udflab_tag] *)

(** What [add_udflab_tag] returns, read as local part and domain. *)
Lemma add_udflab_tag_returns email tagged :
  add_udflab_tag email = Returned tagged →
  has_char "@" email = true
  ∧ ∃ local_part',
      tagged = local_part' +:+ String "@" (split_once "@" email).2
      ∧ has_char "@" local_part' = false
      ∧ contains "+udflab" local_part' = true
      ∧ (local_part' = (split_once "@" email).1
         ∨ local_part' = (split_once "@" email).1 +:+ "+udflab").
Proof.
  unfold add_udflab_tag. rewrite contains_char.
  destruct (has_char "@" email) eqn:Hat; simpl; [|done].
  destruct (split_once_joins "@" email Hat) as [Hjoin Hnot].
  destruct (split_once "@" email) as [local_part domain]. simpl in *.
  destruct (contains "+udflab" local_part) eqn:Htag.
  - intros [= <-]. split; [done |]. exists local_part.
    split; [done |]. split; [done |]. split; [done |]. by left.
  - intros [= <-]. split; [done |]. exists (local_part +:+ "+udflab").
    split; [by rewrite append_assoc |].
    split; [by rewrite has_char_app, Hnot |].
    split; [| by right].
    apply contains_app, contains_prefix. reflexivity.
Qed.

(** X21. Tagging is idempotent: an address that [add_udflab_tag] returned
    is returned unchanged when it is tagged again. *)
Theorem add_udflab_tag_idempotent email tagged :
  add_udflab_tag email = Returned tagged →
  add_udflab_tag tagged = Returned tagged.
Proof.
  intros Hret.
  destruct (add_udflab_tag_returns email tagged Hret)
    as (_ & local_part' & -> & Hnot & Htag & _).
  assert (has_char "@"
            (local_part' +:+ String "@" (split_once "@" email).2) = true)
    as Hat.
  { rewrite has_char_app. cbn [has_char].
    by rewrite Ascii.eqb_refl, orb_true_r. }
  unfold add_udflab_tag. rewrite contains_char, Hat. cbn [negb].
  rewrite (split_once_app "@" local_part' _ Hnot).
  by rewrite Htag.
Qed.

Lemma add_udflab_tag_idempotent_witness :
  add_udflab_tag "a+udflab@b.com" = Returned "a+udflab@b.com".
Proof.
  apply (add_udflab_tag_idempotent "a@b.com" "a+udflab@b.com").
  vm_compute. reflexivity.
Defined.

(** X22. [add_udflab_tag] raises [ValueError] exactly for an address
    without ["@"].  Otherwise it returns an address with the domain it
    was given (all that follows the first ["@"]) and a local part that
    contains "+udflab": the given local part when that already contains
    the tag, else the given local part followed by "+udflab".  A tag in
    the domain does not count. *)
Theorem add_udflab_tag_shape email :
  (has_char "@" email = false ∧
   add_udflab_tag email
   = Thrown (ValueError ("Invalid email address: " +:+ email)))
  ∨ (has_char "@" email = true ∧
     ∃ local_part',
       add_udflab_tag email
       = Returned (local_part' +:+ String "@" (split_once "@" email).2)
       ∧ split_once "@"
           (local_part' +:+ String "@" (split_once "@" email).2)
         = (local_part', (split_once "@" email).2)
       ∧ contains "+udflab" local_part' = true
       ∧ (local_part' =
            if contains "+udflab" (split_once "@" email).1
            then (split_once "@" email).1
            else (split_once "@" email).1 +:+ "+udflab")).
Proof.
  unfold add_udflab_tag. rewrite contains_char.
  destruct (has_char "@" email) eqn:Hat; simpl; [right | by left].
  split; [done |].
  destruct (split_once_joins "@" email Hat) as [Hjoin Hnot].
  destruct (split_once "@" email) as [local_part domain]. simpl in *.
  destruct (contains "+udflab" local_part) eqn:Htag.
  - exists local_part. split; [by rewrite <- Hjoin |].
    split; [by apply split_once_app | done].
  - exists (local_part +:+ "+udflab").
    split; [by rewrite append_assoc |].
    split; [apply split_once_app; by rewrite has_char_app, Hnot |].
    split; [| done].
    apply contains_app, contains_prefix. reflexivity.
Qed.

(** ** [_resolve_cai_url] *)

Lemma rstrip_slash_parts (s : string) :
  ∃ n, s = rstrip_slash s +:+ slashes n.
Proof.
  induction s as [|c s [n IH]]; [by exists 0 |].
  cbn [rstrip_slash].
  destruct (Ascii.eqb_spec c "/") as [->|Hc]; cbn [andb].
  - destruct (String.eqb_spec (rstrip_slash s) EmptyString) as [Hnil|Hnil].
    + exists (S n). rewrite Hnil in IH. by rewrite IH at 1.
    + exists n. rewrite append_cons. by f_equal.
  - exists n. rewrite append_cons. by f_equal.
Qed.

Lemma rstrip_slash_no_slash (s : string) :
  ends_with_slash (rstrip_slash s) = false.
Proof.
  induction s as [|c s IH]; [done |].
  cbn [rstrip_slash].
  destruct (String.eqb_spec (rstrip_slash s) EmptyString) as [Hnil|Hnil].
  - rewrite andb_true_r.
    destruct (Ascii.eqb_spec c "/") as [->|Hc]; [done |].
    rewrite Hnil. cbn [ends_with_slash]. by apply Ascii.eqb_neq.
  - rewrite andb_false_r.
    destruct (rstrip_slash s) as [|c' r]; [done |]. exact IH.
Qed.

Lemma rstrip_slash_fixed (s : string) :
  ends_with_slash s = false → rstrip_slash s = s.
Proof.
  induction s as [|c s IH]; [done |].
  intros Hend. cbn [rstrip_slash].
  destruct s as [|c' s].
  - cbn [ends_with_slash] in Hend. cbn [rstrip_slash]. by rewrite Hend.
  - rewrite (IH Hend). by rewrite andb_false_r.
Qed.

(** X23. The URL [_resolve_cai_url] returns never ends with a slash, and
    it is the value it chose ([url] when that is set and not empty, else
    [CALYPSOAI_URL] when that is, else the default) without its trailing
    slashes, however many.  Resolving a returned URL that is not empty
    gives it back. *)
Theorem resolve_cai_url_strips CALYPSOAI_URL url :
  ends_with_slash (_resolve_cai_url CALYPSOAI_URL url) = false
  ∧ (∃ n,
       (if truthy url then fmt_opt url
        else if truthy CALYPSOAI_URL then fmt_opt CALYPSOAI_URL
        else DEFAULT_CALYPSOAI_URL)
       = _resolve_cai_url CALYPSOAI_URL url +:+ slashes n)
  ∧ (_resolve_cai_url CALYPSOAI_URL url ≠ EmptyString →
     _resolve_cai_url CALYPSOAI_URL
       (Some (_resolve_cai_url CALYPSOAI_URL url))
     = _resolve_cai_url CALYPSOAI_URL url).
Proof.
  unfold _resolve_cai_url.
  split; [apply rstrip_slash_no_slash |].
  split; [apply rstrip_slash_parts |].
  intros Hne. cbn [truthy fmt_opt default].
  apply String.eqb_neq in Hne. rewrite Hne. cbn [negb].
  apply rstrip_slash_fixed, rstrip_slash_no_slash.
Qed.

Lemma resolve_cai_url_strips_witness :
  _resolve_cai_url (Some "https://env.example/")
    (Some (_resolve_cai_url (Some "https://env.example/")
             (Some "https://cai.example/api//")))
  = "https://cai.example/api".
Proof.
  rewrite (proj2 (proj2 (resolve_cai_url_strips
                           (Some "https://env.example/")
                           (Some "https://cai.example/api//"))));
    [vm_compute; reflexivity | vm_compute; discriminate].
Defined.

(** ** [validate_payload] *)

(** X24. [validate_payload] accepts a payload exactly when each of
    [ssm_base_path], [email] and [petname] is a key of it and has a value
    whose [str] is not blank; other keys play no part. *)
Theorem validate_payload_accepts_iff (blank : string → bool)
    (payload : gmap string value) :
  validate_payload blank payload = Ok tt
  ↔ ∀ field, field ∈ required_fields →
      ∃ v, payload !! field = Some v ∧ blank (str_value v) = false.
Proof.
  unfold validate_payload, required_fields. cbn [List.filter]. split.
  - intros Hok field Hin.
    destruct (payload !! "ssm_base_path") as [v1|] eqn:H1;
      destruct (payload !! "email") as [v2|] eqn:H2;
      destruct (payload !! "petname") as [v3|] eqn:H3;
      cbn in Hok; try discriminate.
    destruct (blank (str_value v1)) eqn:B1;
      destruct (blank (str_value v2)) eqn:B2;
      destruct (blank (str_value v3)) eqn:B3;
      cbn in Hok; try discriminate.
    apply list_elem_of_In in Hin. simpl in Hin.
    destruct Hin as [<- | [<- | [<- | []]]]; eauto.
  - intros Hall.
    destruct (Hall "ssm_base_path") as (v1 & H1 & B1);
      [apply (bool_decide_unpack _); vm_compute; exact I |].
    destruct (Hall "email") as (v2 & H2 & B2);
      [apply (bool_decide_unpack _); vm_compute; exact I |].
    destruct (Hall "petname") as (v3 & H3 & B3);
      [apply (bool_decide_unpack _); vm_compute; exact I |].
    rewrite H1, H2, H3. cbn. by rewrite B1, B2, B3.
Qed.

Lemma validate_payload_accepts_iff_witness :
  validate_payload ascii_blank test_payload = Ok tt.
Proof.
  apply (proj2 (validate_payload_accepts_iff ascii_blank test_payload)).
  intros field Hin. apply list_elem_of_In in Hin. simpl in Hin.
  destruct Hin as [<- | [<- | [<- | []]]];
    eexists; (split; [vm_compute; reflexivity | vm_compute; reflexivity]).
Defined.

End HelperFacts.

Module ParameterFacts.
Import CailabHelpers SsmParameters HelperFacts.

(** ** [get_parameters] *)








(** X26. [get_parameters] fails in two ways only, each time with a
    [RuntimeError] whose text starts with "Failed to fetch parameters: ":
    the call raised, and the text goes on with that exception's; or SSM
    reported invalid names, and the text goes on with "Missing parameters
    in SSM: " and the names, since the error raised for them is caught and
    wrapped as well.  In the second case nothing is returned, whatever
    parameters SSM did find. *)
Theorem get_parameters_failures ssm_get_parameters parameters e :
  get_parameters ssm_get_parameters parameters = Raise e →
  (∃ cause,
     ssm_get_parameters parameters = Raise cause
     ∧ e = RuntimeError ("Failed to fetch parameters: " +:+ str_exn cause))
  ∨ (∃ response invalid,
       ssm_get_parameters parameters = Ok response
       ∧ InvalidParameters response = Some invalid
       ∧ invalid ≠ []
       ∧ e = RuntimeError
               ("Failed to fetch parameters: " +:+
                ("Missing parameters in SSM: " +:+ join_comma invalid))).
Proof.
  unfold get_parameters.
  destruct (ssm_get_parameters parameters) as [response|cause] eqn:Hanswer.
  - destruct (InvalidParameters response) as [invalid|] eqn:Hinvalid;
      simpl; [|done].
    destruct (decide (invalid = [])) as [->|Hne]; [done |].
    rewrite bool_decide_eq_false_2 by done. simpl.
    intros [= <-]. right. by exists response, invalid.
  - intros [= <-]. left. by exists cause.
Qed.

Lemma get_parameters_failures_witness :
  get_parameters
    (λ _, Ok {| InvalidParameters := Some ["/lab/cai-token"];
                Parameters := [("/lab/other", "v")] |})
    ["/lab/cai-token"; "/lab/other"]
  = Raise (RuntimeError
             "Failed to fetch parameters: Missing parameters in SSM: /lab/cai-token").
Proof.
  destruct (get_parameters_failures
              (λ _, Ok {| InvalidParameters := Some ["/lab/cai-token"];
                          Parameters := [("/lab/other", "v")] |})
              ["/lab/cai-token"; "/lab/other"]
              (RuntimeError
                 "Failed to fetch parameters: Missing parameters in SSM: /lab/cai-token"))
    as [(cause & Hcause & _) | (response & invalid & _ & _ & _ & _)];
    [vm_compute; reflexivity | discriminate Hcause | vm_compute; reflexivity].
Defined.

End ParameterFacts.

Module LookupFacts.
Import OrgLookup.

(** ** [_lookup_org_id] *)

Lemma paginated_cons response rest :
  paginated (Ok response :: rest) = true →
  paginated rest = true
  ∧ (rest ≠ [] → key_given (LastEvaluatedKey response) = true).
Proof.
  destruct rest as [|next rest]; [done |].
  cbn [paginated]. intros [Hkey Hrest]%andb_true_iff. done.
Qed.

Lemma scan_loop_paginated answers :
  ∀ matches start_key done,
    paginated answers = true →
    length matches ≤ 1 →
    ∃ found,
      (scan_loop answers matches start_key done).1 = Ok found
      ∧ (length (matches ++ all_items answers) ≤ 1 →
         found = matches ++ all_items answers)
      ∧ (1 < length (matches ++ all_items answers) → 1 < length found).
Proof.
  induction answers as [|[response|e] rest IH];
    intros matches start_key done Hpages Hfew.
  - exists matches. cbn. rewrite app_nil_r. split; [done | split; [done | lia]].
  - apply paginated_cons in Hpages as [Hrest Hkey].
    cbn [scan_loop all_items]. rewrite (assoc_L (++)).
    case_bool_decide as Hmany.
    { exists (matches ++ Items response). split; [done |].
      split; [| done]. rewrite length_app. lia. }
    destruct (key_given (LastEvaluatedKey response)) eqn:Hgiven; cbn [negb].
    + apply IH; [done | lia].
    + destruct rest as [|next rest]; [| by specialize (Hkey ltac:(done))].
      exists (matches ++ Items response). cbn. rewrite app_nil_r.
      split; [done | split; [done | lia]].
  - done.
Qed.

(** X27. When DynamoDB answers every scan with a page, and every page but
    the last names the key to go on from, [_lookup_org_id] is decided by
    the matching items of all the pages together: none gives [None], one
    gives its [org_id] ([None] when the item has no such attribute), two
    or more raise "Multiple orgs found for <email>/<petname>.", even when
    the two are on different pages. *)
Theorem lookup_org_id_counts_all_pages email petname st :
  paginated (unread st) = true →
  (_lookup_org_id email petname st).1 =
    match all_items (unread st) with
    | [] => Ok None
    | [item] => Ok (item !! "org_id")
    | _ =>
        Raise (RuntimeError ("Multiple orgs found for " +:+ email +:+
                             "/" +:+ petname +:+ "."))
    end.
Proof.
  intros Hpages. unfold _lookup_org_id.
  destruct (scan_loop_paginated (unread st) [] None (scans st) Hpages)
    as (found & Hrun & Hfew & Hmany); [simpl; lia |].
  destruct (scan_loop (unread st) [] None (scans st)) as [r st'].
  simpl in Hrun. subst r. simpl in Hfew, Hmany.
  destruct (all_items (unread st)) as [|item [|item' items]].
  - by rewrite Hfew by (simpl; lia).
  - by rewrite Hfew by (simpl; lia).
  - specialize (Hmany ltac:(simpl; lia)).
    by destruct found as [|? [|? ?]]; [simpl in Hmany; lia.. |].
Qed.

Lemma lookup_org_id_counts_all_pages_witness :
  (_lookup_org_id "a+udflab@b.com" "cow"
     {| unread := three_pages; scans := [] |}).1
  = Raise (RuntimeError "Multiple orgs found for a+udflab@b.com/cow.").
Proof.
  rewrite (lookup_org_id_counts_all_pages "a+udflab@b.com" "cow"
             {| unread := three_pages; scans := [] |});
    reflexivity.
Defined.

Lemma scan_loop_through before :
  ∀ matches start_key done response after,
    paginated (before ++ [Ok response]) = true →
    length (matches ++ all_items before) ≤ 1 →
    ∃ start_key' done',
      scan_loop (before ++ Ok response :: after) matches start_key done
      = scan_loop (Ok response :: after) (matches ++ all_items before)
          start_key' done'
      ∧ length done' = length done + length before.
Proof.
  induction before as [|[earlier|e] before IH];
    intros matches start_key done response after Hpages Hfew.
  - exists start_key, done. simpl. rewrite app_nil_r. split; [done | lia].
  - change ((Ok earlier :: before) ++ [Ok response])
      with (Ok earlier :: (before ++ [Ok response])) in Hpages.
    apply paginated_cons in Hpages as [Hrest Hkey].
    specialize (Hkey ltac:(by destruct before)).
    cbn [all_items] in Hfew. rewrite (assoc_L (++)) in Hfew.
    change ((Ok earlier :: before) ++ Ok response :: after)
      with (Ok earlier :: (before ++ Ok response :: after)).
    cbn [scan_loop]. rewrite Hkey. cbn [negb].
    rewrite bool_decide_eq_false_2
      by (rewrite length_app in Hfew; lia).
    destruct (IH (matches ++ Items earlier) (LastEvaluatedKey earlier)
                ((if key_given start_key then start_key else None) :: done)
                response after Hrest Hfew)
      as (start_key' & done' & Hrun & Hlen).
    exists start_key', done'. cbn [all_items].
    rewrite (assoc_L (++)). split; [done |]. simpl in Hlen. simpl. lia.
  - done.
Qed.

(** X28. [_lookup_org_id] stops scanning at the page on which the second
    match shows up: it raises "Multiple orgs found ..." there, has made
    one scan per page up to that one, and leaves every later answer
    unread, whatever it would have been. *)
Theorem lookup_stops_at_second_match email petname st before response
    after :
  unread st = before ++ Ok response :: after →
  paginated (before ++ [Ok response]) = true →
  length (all_items before) ≤ 1 →
  1 < length (all_items before ++ Items response) →
  ∃ st',
    _lookup_org_id email petname st
    = (Raise (RuntimeError ("Multiple orgs found for " +:+ email +:+
                            "/" +:+ petname +:+ ".")), st')
    ∧ unread st' = after
    ∧ length (scans st') = length (scans st) + length before + 1.
Proof.
  intros Hunread Hpages Hfew Hmany. unfold _lookup_org_id.
  rewrite Hunread.
  destruct (scan_loop_through before [] None (scans st) response after
              Hpages Hfew)
    as (start_key' & done' & -> & Hlen).
  cbn [scan_loop].
  change ([] ++ all_items before) with (all_items before).
  rewrite bool_decide_eq_true_2 by done.
  destruct (all_items before ++ Items response) as [|item [|item' items]];
    [simpl in Hmany; lia.. |].
  eexists. split; [reflexivity |]. split; [done |]. simpl. lia.
Qed.

Lemma lookup_stops_at_second_match_witness :
  ∃ st',
    _lookup_org_id "a+udflab@b.com" "cow"
      {| unread := three_pages ++ [Raise (RuntimeError "throttled")];
         scans := [] |}
    = (Raise (RuntimeError "Multiple orgs found for a+udflab@b.com/cow."),
       st')
    ∧ unread st' = [Raise (RuntimeError "throttled")]
    ∧ length (scans st') = 3.
Proof.
  apply (lookup_stops_at_second_match "a+udflab@b.com" "cow"
           {| unread := three_pages ++ [Raise (RuntimeError "throttled")];
              scans := [] |}
           [Ok {| Items := []; LastEvaluatedKey := key_after "o-100" |};
            Ok {| Items := [org "o-117"];
                  LastEvaluatedKey := key_after "o-200" |}]
           {| Items := [org "o-230"]; LastEvaluatedKey := None |}
           [Raise (RuntimeError "throttled")]);
    [reflexivity | vm_compute; reflexivity | simpl; lia | simpl; lia].
Defined.

End LookupFacts.
